(** * pychan.sql: MERGE INTO statement writer and merge clause generators

    A shallow embedding of [pychan/sql/utils.py] (class [MergeUtils]) and
    [pychan/sql/merge.py] (class [MergeIntoWriter] with its nested branch
    classes), together with the properties stated about them; then of
    [pychan/sql/catalog.py], of the writing methods of
    [pychan/sql/dataset.py] and of [pychan/functions.py], with further facts
    about all of them.

    Python strings are [string], Python lists are [list], [Optional[T]] is
    [option T], a Python [set] of strings is a [gset string].  Methods of the
    mutable writer object are computations in a small state-and-exception
    monad over the writer's fields. *)

From Stdlib Require Import Ascii String.
From stdpp Require Import base decidable option list strings gmap.

Local Open Scope string_scope.

(** ** Python prelude *)

Module Py.

(** Exceptions raised by the modelled code. *)
Inductive exn : Type :=
| ValueError (msg : string)
| TypeError.

Inductive result (A : Type) : Type :=
| Ok (a : A)
| Raise (e : exn).
Arguments Ok {A} a.
Arguments Raise {A} e.

(** [sep.join(ls)] *)
Fixpoint join (sep : string) (ls : list string) : string :=
  match ls with
  | [] => ""
  | [x] => x
  | x :: xs => x +:+ sep +:+ join sep xs
  end.

(** ["\n"] *)
Definition LF : string := String "010"%char "".

(** Truth value of a [str], of a [list], and of an [Optional] of either. *)
Definition truthy_str (s : string) : bool :=
  match s with "" => false | String _ _ => true end.

Definition truthy_list {A} (l : list A) : bool :=
  match l with [] => false | _ :: _ => true end.

Definition truthy_opt {A} (truthy : A → bool) (o : option A) : bool :=
  match o with None => false | Some a => truthy a end.

(** [all([...])] and [any([...])] over a list of truth values. *)
Definition all (bs : list bool) : bool := forallb id bs.
Definition any (bs : list bool) : bool := existsb id bs.

(** [str(x)] of an [Optional[str]] inside an f-string. *)
Definition fmt_opt (o : option string) : string :=
  match o with None => "None" | Some s => s end.

(** [[f(x) for x in xs]] *)
Fixpoint comprehension {A B} (f : A → B) (xs : list A) : list B :=
  match xs with
  | [] => []
  | x :: xs' => f x :: comprehension f xs'
  end.

(** [[f(x) for x in xs if p(x)]] *)
Fixpoint comprehension_if {A B} (f : A → B) (p : A → bool) (xs : list A)
  : list B :=
  match xs with
  | [] => []
  | x :: xs' =>
      if p x then f x :: comprehension_if f p xs'
      else comprehension_if f p xs'
  end.

(** [zip(xs, ys)]: stops at the end of the shorter argument. *)
Fixpoint zip {A B} (xs : list A) (ys : list B) : list (A * B) :=
  match xs, ys with
  | x :: xs', y :: ys' => (x, y) :: zip xs' ys'
  | _, _ => []
  end.

(** A value annotated [Set[String] | List[String]]. *)
Inductive SetOrList : Type :=
| AsSet (s : gset string)
| AsList (l : list string).

Definition truthy_coll (c : SetOrList) : bool :=
  match c with
  | AsSet s => negb (bool_decide (s = ∅))
  | AsList l => truthy_list l
  end.

(** [x in c] *)
Definition contains (x : string) (c : SetOrList) : bool :=
  match c with
  | AsSet s => bool_decide (x ∈ s)
  | AsList l => bool_decide (x ∈ l)
  end.

End Py.

Import Py.

(** ** [pychan/sql/utils.py]: class [MergeUtils] *)

Module MergeUtils.

Definition _genIdCondition (idColsName : list string) : string :=
  join " AND "
    (comprehension
       (λ idColName, "target." +:+ idColName +:+ " = source." +:+ idColName)
       idColsName).

(** [zip] raises [TypeError] when an argument is [None]. *)
Definition _genPartitionCondition
    (partitionColsName partitionValues : option (list string))
  : result string :=
  match partitionColsName, partitionValues with
  | Some cols, Some vals =>
      Ok (join " AND "
            (comprehension
               (λ '(partitionColName, partitionValue),
                  "target." +:+ partitionColName
                    +:+ " IN (" +:+ partitionValue +:+ ")")
               (zip cols vals)))
  | _, _ => Raise TypeError
  end.

Definition genCondition
    (idColsName : list string)
    (partitionColsName partitionValues : option (list string))
  : result string :=
  let idCondition := _genIdCondition idColsName in
  if truthy_opt truthy_list partitionColsName
     && truthy_opt truthy_list partitionValues
  then
    match _genPartitionCondition partitionColsName partitionValues with
    | Ok partitionCondition =>
        Ok (idCondition +:+ " AND " +:+ partitionCondition)
    | Raise e => Raise e
    end
  else Ok idCondition.

Definition genSet
    (colsName : list string) (ignoreColsName : option SetOrList) : string :=
  let ignoreColsName :=
    if truthy_opt truthy_coll ignoreColsName
    then default (AsSet ∅) ignoreColsName
    else AsSet ∅ in
  join ", "
    (comprehension_if
       (λ colName, colName +:+ " = source." +:+ colName)
       (λ colName, negb (contains colName ignoreColsName))
       colsName).

Definition genValues (colsName : list string) : string :=
  "(" +:+ join ", " colsName +:+ ") "
    +:+ "VALUES "
    +:+ "(" +:+ join ", " (comprehension (λ colName, "source." +:+ colName) colsName)
    +:+ ")".

End MergeUtils.

Import MergeUtils.

(** ** [pychan/sql/merge.py]: class [MergeIntoWriter] *)

Module Merge.

Record MergeIntoWriter : Type := mkWriter {
  _targetAs : string;
  _sourceAs : string;
  _tblName : string;
  _viewName : option string;
  _condition : option string;
  _matchedActions : list string;
  _notMatchedActions : list string;
  _notMatchedBySourceActions : list string
}.

(** A method call on the writer: it reads and updates the fields of the one
    writer object and either returns a value or raises.  The state returned
    next to [Raise] is the object as the raise leaves it. *)
Definition M (A : Type) : Type :=
  MergeIntoWriter → result A * MergeIntoWriter.

Definition ret {A} (a : A) : M A := λ self, (Ok a, self).

Definition bind {A B} (m : M A) (k : A → M B) : M B :=
  λ self,
    match m self with
    | (Ok a, self') => k a self'
    | (Raise e, self') => (Raise e, self')
    end.

Definition raise {A} (e : exn) : M A := λ self, (Raise e, self).
Definition get : M MergeIntoWriter := λ self, (Ok self, self).
Definition modify (f : MergeIntoWriter → MergeIntoWriter) : M unit :=
  λ self, (Ok tt, f self).

Notation "'let*' x ':=' m 'in' k" := (bind m (λ x, k))
  (at level 10, x name, m at level 100, k at level 200).
Notation "'do' m 'in' k" := (bind m (λ _, k))
  (at level 10, m at level 100, k at level 200).

(** The value a call returns and the writer it leaves behind. *)
Definition outcome {A} (m : M A) (self : MergeIntoWriter) : result A :=
  fst (m self).
Definition after {A} (m : M A) (self : MergeIntoWriter) : MergeIntoWriter :=
  snd (m self).

(** Field assignments and in-place list operations. *)
Definition set_viewName (v : option string) (w : MergeIntoWriter) :=
  mkWriter (_targetAs w) (_sourceAs w) (_tblName w) v (_condition w)
    (_matchedActions w) (_notMatchedActions w) (_notMatchedBySourceActions w).

Definition set_condition (c : option string) (w : MergeIntoWriter) :=
  mkWriter (_targetAs w) (_sourceAs w) (_tblName w) (_viewName w) c
    (_matchedActions w) (_notMatchedActions w) (_notMatchedBySourceActions w).

Definition upd_matchedActions (f : list string → list string) (w : MergeIntoWriter) :=
  mkWriter (_targetAs w) (_sourceAs w) (_tblName w) (_viewName w) (_condition w)
    (f (_matchedActions w)) (_notMatchedActions w) (_notMatchedBySourceActions w).

Definition upd_notMatchedActions (f : list string → list string) (w : MergeIntoWriter) :=
  mkWriter (_targetAs w) (_sourceAs w) (_tblName w) (_viewName w) (_condition w)
    (_matchedActions w) (f (_notMatchedActions w)) (_notMatchedBySourceActions w).

Definition upd_notMatchedBySourceActions (f : list string → list string) (w : MergeIntoWriter) :=
  mkWriter (_targetAs w) (_sourceAs w) (_tblName w) (_viewName w) (_condition w)
    (_matchedActions w) (_notMatchedActions w) (f (_notMatchedBySourceActions w)).

(** [l.append(x)] and [l.clear()] *)
Definition append (x : string) (l : list string) : list string := (l ++ [x])%list.
Definition clear (l : list string) : list string := [].

(** [__name__] of the module. *)
Definition __name__ : string := "pychan.sql.merge".

Definition __init__ (tblName : string) : MergeIntoWriter :=
  {| _targetAs := "target";
     _sourceAs := "source";
     _tblName := tblName;
     _viewName := None;
     _condition := None;
     _matchedActions := [];
     _notMatchedActions := [];
     _notMatchedBySourceActions := [] |}.

(** [using] (a reserved word here, hence the trailing underscore) *)
Definition using_ (viewName : string) : M unit :=
  modify (set_viewName (Some viewName)).

Definition on (condition : string) : M unit :=
  modify (set_condition (Some condition)).

Definition _clearActions : M unit :=
  do modify (upd_matchedActions clear) in
  do modify (upd_notMatchedActions clear) in
  modify (upd_notMatchedBySourceActions clear).

Definition generate : M string :=
  let* self := get in
  if negb (all [truthy_str (_tblName self);
                truthy_opt truthy_str (_viewName self);
                truthy_opt truthy_str (_condition self)])
  then raise (ValueError (__name__ +:+ ".generate(): Missing required parameters."))
  else
  if negb (any [truthy_list (_matchedActions self);
                truthy_list (_notMatchedActions self);
                truthy_list (_notMatchedBySourceActions self)])
  then raise (ValueError (__name__ +:+ ".generate(): No merge actions provided."))
  else
  let sql : list string :=
    (["MERGE INTO " +:+ _tblName self +:+ " AS " +:+ _targetAs self;
     "USING " +:+ fmt_opt (_viewName self) +:+ " AS " +:+ _sourceAs self;
     "ON " +:+ fmt_opt (_condition self)]
      ++ _matchedActions self
      ++ _notMatchedActions self
      ++ _notMatchedBySourceActions self)%list in
  do _clearActions in
  ret (join LF sql).

(** The nested branch classes.  A branch object stores a reference to the
    writer and the optional predicate; its methods act on the writer as it
    is when they are called, so the reference is the monad's state and the
    object's own data is the predicate. *)
Module WhenMatched.
Record t : Type := mk { condition : option string }.

Definition _genWhen (self : t) : string :=
  if truthy_opt truthy_str (condition self)
  then "WHEN MATCHED AND " +:+ fmt_opt (condition self)
  else "WHEN MATCHED".

Definition updateAll (self : t) : M unit :=
  modify (upd_matchedActions (append (_genWhen self +:+ " THEN UPDATE SET *"))).

Definition updateExpr (self : t) (set : string) : M unit :=
  modify (upd_matchedActions (append (_genWhen self +:+ " THEN UPDATE SET " +:+ set))).

Definition delete (self : t) : M unit :=
  modify (upd_matchedActions (append (_genWhen self +:+ " THEN DELETE"))).
End WhenMatched.

Module WhenNotMatched.
Record t : Type := mk { condition : option string }.

Definition _genWhen (self : t) : string :=
  if truthy_opt truthy_str (condition self)
  then "WHEN NOT MATCHED AND " +:+ fmt_opt (condition self)
  else "WHEN NOT MATCHED".

Definition insertAll (self : t) : M unit :=
  modify (upd_notMatchedActions (append (_genWhen self +:+ " THEN INSERT *"))).

Definition insertExpr (self : t) (values : string) : M unit :=
  modify (upd_notMatchedActions (append (_genWhen self +:+ " THEN INSERT " +:+ values))).
End WhenNotMatched.

Module WhenNotMatchedBySource.
Record t : Type := mk { condition : option string }.

Definition _genWhen (self : t) : string :=
  if truthy_opt truthy_str (condition self)
  then "WHEN NOT MATCHED BY SOURCE AND " +:+ fmt_opt (condition self)
  else "WHEN NOT MATCHED BY SOURCE".

Definition updateAll (self : t) : M unit :=
  modify (upd_notMatchedBySourceActions (append (_genWhen self +:+ " THEN UPDATE SET *"))).

Definition updateExpr (self : t) (set : string) : M unit :=
  modify (upd_notMatchedBySourceActions
            (append (_genWhen self +:+ " THEN UPDATE SET " +:+ set))).

Definition delete (self : t) : M unit :=
  modify (upd_notMatchedBySourceActions (append (_genWhen self +:+ " THEN DELETE"))).
End WhenNotMatchedBySource.

Definition whenMatched (condition : option string) : M WhenMatched.t :=
  ret (WhenMatched.mk condition).

Definition whenNotMatched (condition : option string) : M WhenNotMatched.t :=
  ret (WhenNotMatched.mk condition).

Definition whenNotMatchedBySource (condition : option string)
  : M WhenNotMatchedBySource.t :=
  ret (WhenNotMatchedBySource.mk condition).

End Merge.

Import Merge.

(** ** Call sequences on one writer *)

(** The branch actions: a method of a branch object, with that object. *)
Inductive action : Type :=
| MatchedUpdateAll (b : WhenMatched.t)
| MatchedUpdateExpr (b : WhenMatched.t) (set : string)
| MatchedDelete (b : WhenMatched.t)
| NotMatchedInsertAll (b : WhenNotMatched.t)
| NotMatchedInsertExpr (b : WhenNotMatched.t) (values : string)
| BySourceUpdateAll (b : WhenNotMatchedBySource.t)
| BySourceUpdateExpr (b : WhenNotMatchedBySource.t) (set : string)
| BySourceDelete (b : WhenNotMatchedBySource.t).

Definition act (a : action) : M unit :=
  match a with
  | MatchedUpdateAll b => WhenMatched.updateAll b
  | MatchedUpdateExpr b set => WhenMatched.updateExpr b set
  | MatchedDelete b => WhenMatched.delete b
  | NotMatchedInsertAll b => WhenNotMatched.insertAll b
  | NotMatchedInsertExpr b values => WhenNotMatched.insertExpr b values
  | BySourceUpdateAll b => WhenNotMatchedBySource.updateAll b
  | BySourceUpdateExpr b set => WhenNotMatchedBySource.updateExpr b set
  | BySourceDelete b => WhenNotMatchedBySource.delete b
  end.

(** The mutators of a constructed writer. *)
Inductive mutator : Type :=
| Using (viewName : string)
| On (condition : string)
| Act (a : action).

Definition mutate (m : mutator) : M unit :=
  match m with
  | Using viewName => using_ viewName
  | On condition => on condition
  | Act a => act a
  end.

Inductive call : Type :=
| Mutate (m : mutator)
| Generate.

Definition perform (c : call) : M unit :=
  match c with
  | Mutate m => mutate m
  | Generate => let* _ := generate in ret tt
  end.

(** The states a writer object can be in: as constructed, or after any
    sequence of calls, failed ones included. *)
Inductive reachable : MergeIntoWriter → Prop :=
| reachable_init tblName : reachable (__init__ tblName)
| reachable_call w c : reachable w → reachable (after (perform c) w).

(** The writer of the doctest of [generate], just before [generate] is
    called, and two earlier stages of it. *)
Definition sales_with_source : MergeIntoWriter :=
  after (perform (Mutate (Using "{df}"))) (__init__ "lh.Sales").

Definition sales_configured : MergeIntoWriter :=
  after (perform (Mutate (On "target.id = source.id"))) sales_with_source.

Definition sales_upsert : MergeIntoWriter :=
  after (perform (Mutate (Act (NotMatchedInsertAll (WhenNotMatched.mk None)))))
    (after (perform (Mutate (Act (MatchedUpdateAll (WhenMatched.mk None)))))
       sales_configured).

(** ** Vocabulary of the statements *)

Definition MissingConfigurationError : exn :=
  ValueError "pychan.sql.merge.generate(): Missing required parameters.".

Definition NoActionsError : exn :=
  ValueError "pychan.sql.merge.generate(): No merge actions provided.".

Inductive branch : Type := Matched | NotMatched | NotMatchedBySource.

Definition actions_of (k : branch) (w : MergeIntoWriter) : list string :=
  match k with
  | Matched => _matchedActions w
  | NotMatched => _notMatchedActions w
  | NotMatchedBySource => _notMatchedBySourceActions w
  end.

(** All recorded action lines, in rendering order. *)
Definition recorded (w : MergeIntoWriter) : list string :=
  (_matchedActions w ++ _notMatchedActions w ++ _notMatchedBySourceActions w)%list.

(** The configuration fields. *)
Definition configuration (w : MergeIntoWriter)
  : string * option string * option string :=
  (_tblName w, _viewName w, _condition w).

(** A field that is unset or empty. *)
Definition absent (o : option string) : Prop := o = None ∨ o = Some "".

(** [m] appends the one line [line] to the action sequence of branch [k] and
    changes nothing else. *)
Definition appends_one (k : branch) (line : string) (m : M unit) : Prop :=
  ∀ w,
    outcome m w = Ok tt
    ∧ actions_of k (after m w) = (actions_of k w ++ [line])%list
    ∧ (∀ k', k' ≠ k → actions_of k' (after m w) = actions_of k' w)
    ∧ configuration (after m w) = configuration w
    ∧ _targetAs (after m w) = _targetAs w
    ∧ _sourceAs (after m w) = _sourceAs w.

(** ['target.k1 = source.k1 AND ... AND target.kn = source.kn'], written out
    by recursion on the columns after the first. *)
Fixpoint and_chain (k1 : string) (ks : list string) : string :=
  match ks with
  | [] => "target." +:+ k1 +:+ " = source." +:+ k1
  | k2 :: ks' =>
      "target." +:+ k1 +:+ " = source." +:+ k1 +:+ " AND " +:+ and_chain k2 ks'
  end.

(** The columns an optional exclusion argument names. *)
Definition excluded (ignoreColsName : option SetOrList) : gset string :=
  match ignoreColsName with
  | None => ∅
  | Some (AsSet s) => s
  | Some (AsList l) => list_to_set l
  end.

(** A run of branch actions, one after the other. *)
Fixpoint act_all (acts : list action) : M unit :=
  match acts with
  | [] => ret tt
  | a :: acts' => do act a in act_all acts'
  end.

(** The branch kind an action belongs to and the line it writes. *)
Definition kind_of (a : action) : branch :=
  match a with
  | MatchedUpdateAll _ | MatchedUpdateExpr _ _ | MatchedDelete _ => Matched
  | NotMatchedInsertAll _ | NotMatchedInsertExpr _ _ => NotMatched
  | BySourceUpdateAll _ | BySourceUpdateExpr _ _ | BySourceDelete _ =>
      NotMatchedBySource
  end.

Definition line_of (a : action) : string :=
  match a with
  | MatchedUpdateAll b => WhenMatched._genWhen b +:+ " THEN UPDATE SET *"
  | MatchedUpdateExpr b set =>
      WhenMatched._genWhen b +:+ " THEN UPDATE SET " +:+ set
  | MatchedDelete b => WhenMatched._genWhen b +:+ " THEN DELETE"
  | NotMatchedInsertAll b => WhenNotMatched._genWhen b +:+ " THEN INSERT *"
  | NotMatchedInsertExpr b values =>
      WhenNotMatched._genWhen b +:+ " THEN INSERT " +:+ values
  | BySourceUpdateAll b =>
      WhenNotMatchedBySource._genWhen b +:+ " THEN UPDATE SET *"
  | BySourceUpdateExpr b set =>
      WhenNotMatchedBySource._genWhen b +:+ " THEN UPDATE SET " +:+ set
  | BySourceDelete b => WhenNotMatchedBySource._genWhen b +:+ " THEN DELETE"
  end.

Global Instance branch_eq_dec : EqDecision branch.
Proof. solve_decision. Defined.

(** The lines a run of actions writes for one branch kind, in call order. *)
Definition lines_for (k : branch) (acts : list action) : list string :=
  line_of <$> filter (λ a, kind_of a = k) acts.

(** The plain prefix of the lines of a branch kind. *)
Definition plain_prefix (k : branch) : string :=
  match k with
  | Matched => "WHEN MATCHED"
  | NotMatched => "WHEN NOT MATCHED"
  | NotMatchedBySource => "WHEN NOT MATCHED BY SOURCE"
  end.

(** ** [pychan/sql/catalog.py]: class [Catalog] *)

Module Catalog.

(** The fields of a [pyspark.sql.catalog.Table] that the code reads. *)
Record Table : Type := mkTable {
  name : string;
  tableType : string
}.

Definition getTablesName (tables : list Table) : list string :=
  comprehension_if name (λ tbl, String.eqb (tableType tbl) "MANAGED") tables.

Definition getViewsName (tables : list Table) : list string :=
  comprehension_if name (λ tbl, String.eqb (tableType tbl) "VIEW") tables.

End Catalog.

(** ** Results with an exception type of their own *)

Module Exc.

Inductive res (E A : Type) : Type :=
| Returns (a : A)
| Raises (e : E).
Arguments Returns {E A} a.
Arguments Raises {E A} e.

Global Instance res_ret {E} : MRet (res E) := λ A a, Returns a.

Global Instance res_bind {E} : MBind (res E) := λ A B k m,
  match m with
  | Returns a => k a
  | Raises e => Raises e
  end.

End Exc.

Import Exc.

(** ** [pychan/sql/dataset.py]: class [Dataset], with [format.py], [mode.py] *)

Module Dataset.

Inductive Format : Type :=
| Delta | Iceberg | Parquet | Csv | Text | Json | Excel | Jdbc.

Definition Format_value (f : Format) : string :=
  match f with
  | Delta => "delta"
  | Iceberg => "iceberg"
  | Parquet => "parquet"
  | Csv => "csv"
  | Text => "text"
  | Json => "json"
  | Excel => "com.crealytics.spark.excel"
  | Jdbc => "jdbc"
  end.

Inductive SaveMode : Type :=
| ErrorIfExists | Append | Overwrite | Ignore.

Definition SaveMode_value (m : SaveMode) : string :=
  match m with
  | ErrorIfExists => "error"
  | Append => "append"
  | Overwrite => "overwrite"
  | Ignore => "ignore"
  end.

Inductive exn : Type :=
| AttributeError (msg : string).

(** An argument annotated [E | String] for an enumeration [E]. *)
Inductive EnumOrString (E : Type) : Type :=
| AsEnum (e : E)
| AsString (s : string).
Arguments AsEnum {E} e.
Arguments AsString {E} s.

(** Members of an [Enum] are true; a string is true when it is not empty. *)
Definition truthy_arg {E} (a : EnumOrString E) : bool :=
  match a with
  | AsEnum _ => true
  | AsString s => truthy_str s
  end.

(** [a.value]: a [str] has no such attribute. *)
Definition value_of {E} (value : E → string) (a : EnumOrString E)
  : res exn string :=
  match a with
  | AsEnum e => Returns (value e)
  | AsString _ => Raises (AttributeError "'str' object has no attribute 'value'")
  end.

Definition truthy_dict (m : gmap string string) : bool :=
  negb (bool_decide (m = ∅)).

(** The calls made on the [DataFrameWriter] of a data frame.  What the
    engine does on such a call is outside the model; a writer is the record
    of the calls made on it so far, oldest first. *)
Inductive WriterCall : Type :=
| Wformat (source : string)
| Wmode (saveMode : string)
| WpartitionBy (cols : list string)
| Woptions (options : gmap string string)
| Wsave (path : string)
| WsaveAsTable (name : string).

Definition W (A : Type) : Type :=
  list WriterCall → res exn A * list WriterCall.

Definition wret {A} (a : A) : W A := λ writer, (Returns a, writer).

Definition wbind {A B} (m : W A) (k : A → W B) : W B :=
  λ writer,
    match m writer with
    | (Returns a, writer') => k a writer'
    | (Raises e, writer') => (Raises e, writer')
    end.

Definition wlift {A} (r : res exn A) : W A := λ writer, (r, writer).

Definition wcall (c : WriterCall) : W unit :=
  λ writer, (Returns tt, (writer ++ [c])%list).

(** [if x: ...] for an optional argument [x]. *)
Definition if_truthy {A} (truthy : A → bool) (x : option A) (body : A → W unit)
  : W unit :=
  match x with
  | Some a => if truthy a then body a else wret tt
  | None => wret tt
  end.

Definition writeDF
    (path : string)
    (format : option (EnumOrString Format))
    (mode : option (EnumOrString SaveMode))
    (partitionColsName : option (list string))
    (options : option (gmap string string)) : W unit :=
  wbind (if_truthy truthy_arg format
           (λ format, wbind (wlift (value_of Format_value format))
                        (λ v, wcall (Wformat v))))
    (λ _,
  wbind (if_truthy truthy_arg mode
           (λ mode, wbind (wlift (value_of SaveMode_value mode))
                      (λ v, wcall (Wmode v))))
    (λ _,
  wbind (if_truthy truthy_list partitionColsName
           (λ partitionColsName, wcall (WpartitionBy partitionColsName)))
    (λ _,
  wbind (if_truthy truthy_dict options (λ options, wcall (Woptions options)))
    (λ _,
  wcall (Wsave path))))).

Definition writeTable
    (tblName : string)
    (format : option (EnumOrString Format))
    (mode : option (EnumOrString SaveMode))
    (partitionColsName : option (list string))
    (options : option (gmap string string)) : W unit :=
  wbind (if_truthy truthy_arg format
           (λ format, wbind (wlift (value_of Format_value format))
                        (λ v, wcall (Wformat v))))
    (λ _,
  wbind (if_truthy truthy_arg mode
           (λ mode, wbind (wlift (value_of SaveMode_value mode))
                      (λ v, wcall (Wmode v))))
    (λ _,
  wbind (if_truthy truthy_list partitionColsName
           (λ partitionColsName, wcall (WpartitionBy partitionColsName)))
    (λ _,
  wbind (if_truthy truthy_dict options (λ options, wcall (Woptions options)))
    (λ _,
  wcall (WsaveAsTable tblName))))).

Definition mergeInto (tblName : string) : MergeIntoWriter := __init__ tblName.

(** The calls a method makes on a fresh writer [df.write], and its result. *)
Definition calls_of {A} (m : W A) : list WriterCall := snd (m []).
Definition result_of {A} (m : W A) : res exn A := fst (m []).

Definition is_save (c : WriterCall) : Prop :=
  match c with
  | Wsave _ | WsaveAsTable _ => True
  | _ => False
  end.

(** An argument that is a string with at least one character. *)
Definition nonempty_string {E} (x : option (EnumOrString E)) : Prop :=
  ∃ s, x = Some (AsString s) ∧ s ≠ "".

End Dataset.

(** ** [pychan/functions.py] *)

Module Functions.

Definition __name__ : string := "pychan.functions".

Inductive exn : Type :=
| TypeError (msg : string)
| ValueError (msg : string)
| OverflowError (msg : string)
| PartError (message : string)
| ParserError (message : string).

(** [datetime.date], [datetime.time], [datetime.datetime] and
    [datetime.timedelta] values, by their fields.  The records also hold
    field combinations that no Python value has (a 31st of February); every
    Python value is one of them. *)
Module Date.
Record t : Type := mk { year : nat; month : nat; day : nat }.

(** [x.replace(month=..., day=...)] *)
Definition replace (x : t) (new_month new_day : option nat) : t :=
  mk (year x) (default (month x) new_month) (default (day x) new_day).
End Date.

Module Time.
Record t : Type := mk {
  hour : nat; minute : nat; second : nat; microsecond : nat;
  tzinfo : option string; fold : nat
}.
End Time.

Module Datetime.
Record t : Type := mk {
  year : nat; month : nat; day : nat;
  hour : nat; minute : nat; second : nat; microsecond : nat;
  tzinfo : option string; fold : nat
}.

(** [x.replace(month=..., day=..., hour=..., minute=..., second=...,
    microsecond=...)]: the zone and the fold stay. *)
Definition replace (x : t)
    (new_month new_day new_hour new_minute new_second new_microsecond : option nat)
  : t :=
  mk (year x) (default (month x) new_month) (default (day x) new_day)
     (default (hour x) new_hour) (default (minute x) new_minute)
     (default (second x) new_second) (default (microsecond x) new_microsecond)
     (tzinfo x) (fold x).

(** [x.date()] *)
Definition date (x : t) : Date.t := Date.mk (year x) (month x) (day x).

(** [x.time()]: the time of day, without the zone. *)
Definition time (x : t) : Time.t :=
  Time.mk (hour x) (minute x) (second x) (microsecond x) None (fold x).

(** [datetime.combine(d, t)]: the zone and the fold are those of [t]. *)
Definition combine (d : Date.t) (t : Time.t) : Datetime.t :=
  mk (Date.year d) (Date.month d) (Date.day d)
     (Time.hour t) (Time.minute t) (Time.second t) (Time.microsecond t)
     (Time.tzinfo t) (Time.fold t).

(** [datetime.min] *)
Definition min : t := mk 1 1 1 0 0 0 0 None 0.
End Datetime.

Record timedelta : Type := mkTimedelta {
  days : Z; seconds : Z; microseconds : Z
}.

(** A [relativedelta] built with the one keyword [parts] set to [number]. *)
Record relativedelta : Type := mkRelativedelta {
  parts : string; number : Z
}.

(** A Python value as the functions receive it: a [str], a [date] that is
    not a [datetime], a [datetime], or anything else. *)
Inductive value : Type :=
| Str (s : string)
| DateV (d : Date.t)
| DatetimeV (x : Datetime.t)
| Other.

Definition isinstance_str (v : value) : bool :=
  match v with Str _ => true | _ => false end.

(** [datetime] is a subclass of [date]. *)
Definition isinstance_date (v : value) : bool :=
  match v with DateV _ | DatetimeV _ => true | _ => false end.

Definition isinstance_datetime (v : value) : bool :=
  match v with DatetimeV _ => true | _ => false end.

(** What the functions use of [datetime], [dateutil] and [re] beyond the
    field operations above. *)
Record Library : Type := mkLibrary {
  (** [dateutil.parser.parse(s)] *)
  parser_parse : string → res exn Datetime.t;
  (** [datetime.fromisoformat(s)] *)
  fromisoformat : string → res exn Datetime.t;
  (** [expr + delta] and [expr - delta] for a [relativedelta] *)
  add_relativedelta : value → relativedelta → res exn value;
  sub_relativedelta : value → relativedelta → res exn value;
  (** [a - b] for two datetimes and for two dates *)
  datetime_minus : Datetime.t → Datetime.t → res exn timedelta;
  date_minus : Date.t → Date.t → res exn timedelta;
  (** [x - delta] for a [timedelta] *)
  datetime_minus_timedelta : Datetime.t → timedelta → res exn Datetime.t;
  (** [x.weekday()] *)
  weekday : Datetime.t → nat;
  (** [x.strftime(format)] *)
  datetime_strftime : Datetime.t → string → res exn string;
  date_strftime : Date.t → string → res exn string
}.

(** [s[:n]] *)
Fixpoint slice_to (n : nat) (s : string) : string :=
  match n, s with
  | S n', String c s' => String c (slice_to n' s')
  | _, _ => ""
  end.

(** A character that the pattern [\d] matches; strings here are sequences of
    characters with code points below 256, among which the decimal digits
    are 0 to 9. *)
Definition is_decimal_digit (c : ascii) : bool :=
  match c with
  | "0" | "1" | "2" | "3" | "4" | "5" | "6" | "7" | "8" | "9" => true
  | _ => false
  end%char.

(** [re.sub] deleting every match of the non-digit pattern from [s]. *)
Fixpoint re_sub_nondigit (s : string) : string :=
  match s with
  | "" => ""
  | String c s' =>
      if is_decimal_digit c then String c (re_sub_nondigit s')
      else re_sub_nondigit s'
  end.

Definition _TIMESTAMP_PART : gmap string string :=
  list_to_map
    [("year", "years");
     ("month", "months");
     ("day", "days");
     ("week", "weeks");
     ("hour", "hours");
     ("minute", "minutes");
     ("second", "seconds");
     ("microsecond", "microseconds")].

Definition _DATE_TRUNC : gmap string (Date.t → Date.t) :=
  list_to_map
    [("year", λ x, Date.replace x (Some 1) (Some 1));
     ("month", λ x, Date.replace x None (Some 1))].

Definition _assertString (string_ : value) (funcName : string) : res exn unit :=
  if negb (isinstance_str string_)
  then Raises (TypeError (__name__ +:+ "." +:+ funcName +:+ "()"))
  else Returns tt.

Definition _assertTimestamp (timestampExpr : value) (funcName : string)
  : res exn unit :=
  if negb (isinstance_datetime timestampExpr)
  then Raises (TypeError (__name__ +:+ "." +:+ funcName +:+ "()"))
  else Returns tt.

Definition _assertDate (dateExpr : value) (funcName : string) : res exn unit :=
  if negb (isinstance_date dateExpr) || isinstance_datetime dateExpr
  then Raises (TypeError (__name__ +:+ "." +:+ funcName +:+ "()"))
  else Returns tt.

(** The string, datetime or date that a value is, once the assertion before
    has passed; on any other value the assertion has raised already. *)
Definition the_str (v : value) : res exn string :=
  match v with
  | Str s => Returns s
  | _ => Raises (TypeError "")
  end.

Definition the_datetime (v : value) : res exn Datetime.t :=
  match v with
  | DatetimeV x => Returns x
  | _ => Raises (TypeError "")
  end.

Definition the_date (v : value) : res exn Date.t :=
  match v with
  | DateV d => Returns d
  | _ => Raises (TypeError "")
  end.

Section WithLibrary.

Context (lib : Library).

Definition _TIMESTAMP_TRUNC : gmap string (Datetime.t → res exn Datetime.t) :=
  list_to_map
    [("year", λ x, Returns (Datetime.replace x (Some 1) (Some 1)
                              (Some 0) (Some 0) (Some 0) (Some 0)));
     ("month", λ x, Returns (Datetime.replace x None (Some 1)
                               (Some 0) (Some 0) (Some 0) (Some 0)));
     ("day", λ x, Returns (Datetime.replace x None None
                             (Some 0) (Some 0) (Some 0) (Some 0)));
     ("week", λ x,
        y ← datetime_minus_timedelta lib x
              (mkTimedelta (Z.of_nat (weekday lib x)) 0 0);
        Returns (Datetime.replace y None None
                   (Some 0) (Some 0) (Some 0) (Some 0)));
     ("hour", λ x, Returns (Datetime.replace x None None
                              None (Some 0) (Some 0) (Some 0)));
     ("minute", λ x, Returns (Datetime.replace x None None
                                None None (Some 0) (Some 0)));
     ("second", λ x, Returns (Datetime.replace x None None
                                None None None (Some 0)))].

Definition _shiftTime
    (expr : value) (number : Z) (part : string) (funcName : string)
    (add : bool) : res exn value :=
  match _TIMESTAMP_PART !! part with
  | Some parts =>
      if negb (truthy_str parts)
      then Raises (PartError (__name__ +:+ "." +:+ funcName +:+ "()"))
      else
        let delta := mkRelativedelta parts number in
        if add then add_relativedelta lib expr delta
        else sub_relativedelta lib expr delta
  | None => Raises (PartError (__name__ +:+ "." +:+ funcName +:+ "()"))
  end.

Definition _parseTimestamp (timeStr : value) (funcName : string)
  : res exn Datetime.t :=
  _assertString timeStr funcName ;;
  s ← the_str timeStr;
  match parser_parse lib s with
  | Returns x => Returns x
  | Raises (ValueError _) | Raises (TypeError _) =>
      Raises (ParserError (__name__ +:+ "." +:+ funcName +:+ "()"))
  | Raises e => Raises e
  end.

Definition timestampAdd (timestampExpr : value) (number : Z) (part : string)
  : res exn value :=
  _assertTimestamp timestampExpr "timestampAdd" ;;
  _shiftTime timestampExpr number part "timestampAdd" true.

Definition timestampSub (timestampExpr : value) (number : Z) (part : string)
  : res exn value :=
  _assertTimestamp timestampExpr "timestampSub" ;;
  _shiftTime timestampExpr number part "timestampSub" false.

Definition timestampDiff (endTimestampExpr startTimestampExpr : value)
  : res exn Z :=
  _assertTimestamp endTimestampExpr "timestampDiff" ;;
  _assertTimestamp startTimestampExpr "timestampDiff" ;;
  e ← the_datetime endTimestampExpr;
  s ← the_datetime startTimestampExpr;
  d ← datetime_minus lib e s;
  Returns (days d).

Definition timestampTrunc (timestampExpr : value) (part : string)
  : res exn Datetime.t :=
  _assertTimestamp timestampExpr "timestampTrunc" ;;
  x ← the_datetime timestampExpr;
  match _TIMESTAMP_TRUNC !! part with
  | Some func => func x
  | None => Raises (PartError (__name__ +:+ ".timestampTrunc()"))
  end.

Definition timestampFormat (timestampExpr : value) (format : string)
  : res exn string :=
  _assertTimestamp timestampExpr "timestampFormat" ;;
  x ← the_datetime timestampExpr;
  datetime_strftime lib x format.

Definition toTimestamp (dateOrTimestampStr : value) : res exn Datetime.t :=
  match dateOrTimestampStr with
  | Str s => fromisoformat lib s
  | DateV d => Returns (Datetime.combine d (Datetime.time Datetime.min))
  | DatetimeV x =>
      Returns (Datetime.combine (Datetime.date x) (Datetime.time Datetime.min))
  | Other => Raises (TypeError (__name__ +:+ ".toTimestamp()"))
  end.

Definition toTimestampId (timestampStr : value) : res exn string :=
  _parseTimestamp timestampStr "toTimestampId" ;;
  s ← the_str timestampStr;
  Returns (re_sub_nondigit (slice_to 19 s)).

Definition parseTimestamp (timeStr : value) : res exn Datetime.t :=
  _parseTimestamp timeStr "parseTimestamp".

Definition dateAdd (dateExpr : value) (number : Z) (part : string)
  : res exn value :=
  _assertDate dateExpr "dateAdd" ;;
  _shiftTime dateExpr number part "dateAdd" true.

Definition dateSub (dateExpr : value) (number : Z) (part : string)
  : res exn value :=
  _assertDate dateExpr "dateSub" ;;
  _shiftTime dateExpr number part "dateSub" false.

Definition dateDiff (endDateExpr startDateExpr : value) : res exn Z :=
  _assertDate endDateExpr "dateDiff" ;;
  _assertDate startDateExpr "dateDiff" ;;
  e ← the_date endDateExpr;
  s ← the_date startDateExpr;
  d ← date_minus lib e s;
  Returns (days d).

Definition dateTrunc (dateExpr : value) (part : string) : res exn Date.t :=
  _assertDate dateExpr "dateTrunc" ;;
  x ← the_date dateExpr;
  match _DATE_TRUNC !! part with
  | Some func => Returns (func x)
  | None => Raises (PartError (__name__ +:+ ".dateTrunc()"))
  end.

Definition dateFormat (dateExpr : value) (format : string) : res exn string :=
  _assertDate dateExpr "dateFormat" ;;
  x ← the_date dateExpr;
  date_strftime lib x format.

Definition toDate (timestampOrDateStr : value) : res exn Date.t :=
  match timestampOrDateStr with
  | Str s => x ← fromisoformat lib s; Returns (Datetime.date x)
  | DatetimeV x => Returns (Datetime.date x)
  | _ => Raises (TypeError (__name__ +:+ ".toDate()"))
  end.

Definition toDateId (timestampStrOrDateStr : value) : res exn string :=
  _parseTimestamp timestampStrOrDateStr "toTimestampId" ;;
  s ← the_str timestampStrOrDateStr;
  Returns (re_sub_nondigit (slice_to 10 s)).

Definition parseDate (timeStr : value) : res exn Date.t :=
  x ← _parseTimestamp timeStr "parseDate";
  Returns (Datetime.date x).

End WithLibrary.

(** A library that accepts every string as the first instant and fails on
    every other operation; it serves to instantiate statements. *)
Definition accepting_library : Library :=
  {| parser_parse := λ _, Returns Datetime.min;
     fromisoformat := λ _, Returns Datetime.min;
     add_relativedelta := λ _ _, Raises (TypeError "unsupported operand");
     sub_relativedelta := λ _ _, Raises (TypeError "unsupported operand");
     datetime_minus := λ _ _, Raises (TypeError "unsupported operand");
     date_minus := λ _ _, Raises (TypeError "unsupported operand");
     datetime_minus_timedelta := λ _ _, Raises (OverflowError "date value out of range");
     weekday := λ _, 0;
     datetime_strftime := λ _ _, Raises (ValueError "format");
     date_strftime := λ _ _, Raises (ValueError "format") |}.

(** The parts that name a field of a datetime, coarsest first. *)
Definition field_parts : list string :=
  ["year"; "month"; "day"; "hour"; "minute"; "second"].

(** A string made of decimal digits only. *)
Fixpoint all_digits (s : string) : Prop :=
  match s with
  | "" => True
  | String c s' => is_decimal_digit c = true ∧ all_digits s'
  end.

(** A string of exactly [n] decimal digits. *)
Definition digit_group (n : nat) (s : string) : Prop :=
  String.length s = n ∧ all_digits s.

(** The parts [_shiftTime] knows. *)
Definition shift_parts : list string :=
  ["year"; "month"; "day"; "week"; "hour"; "minute"; "second"; "microsecond"].

End Functions.

(** ** Doctests of the source *)

Example genIdCondition_doc :
  _genIdCondition ["BELNR"; "DOCLN"; "RCLNT"]
  = "target.BELNR = source.BELNR AND target.DOCLN = source.DOCLN AND target.RCLNT = source.RCLNT".
Proof. reflexivity. Qed.

Example genPartitionCondition_doc :
  _genPartitionCondition (Some ["RBUKRS"; "GJAHR"]) (Some ["'S030'"; "'2025', '2024'"])
  = Ok "target.RBUKRS IN ('S030') AND target.GJAHR IN ('2025', '2024')".
Proof. reflexivity. Qed.

Example genCondition_doc :
  genCondition ["BELNR"; "GJAHR"] (Some ["RBUKRS"; "GJAHR"]) (Some ["'S030'"; "'2025', '2024'"])
  = Ok "target.BELNR = source.BELNR AND target.GJAHR = source.GJAHR AND target.RBUKRS IN ('S030') AND target.GJAHR IN ('2025', '2024')".
Proof. reflexivity. Qed.

Example genSet_doc :
  genSet ["BELNR"; "DOCLN"; "__created_timestamp"] (Some (AsSet {["__created_timestamp"]}))
  = "BELNR = source.BELNR, DOCLN = source.DOCLN".
Proof. vm_compute. reflexivity. Qed.

Example genValues_doc :
  genValues ["c1"; "c2"] = "(c1, c2) VALUES (source.c1, source.c2)".
Proof. reflexivity. Qed.


Example generate_doc :
  outcome
    (do using_ "{df}" in
     do on "target.id = source.id" in
     let* b := whenMatched None in
     do WhenMatched.updateAll b in
     let* b := whenNotMatched None in
     do WhenNotMatched.insertAll b in
     generate)
    (__init__ "lh.Sales")
  = Ok ("MERGE INTO lh.Sales AS target" +:+ LF +:+
        "USING {df} AS source" +:+ LF +:+
        "ON target.id = source.id" +:+ LF +:+
        "WHEN MATCHED THEN UPDATE SET *" +:+ LF +:+
        "WHEN NOT MATCHED THEN INSERT *").
Proof. reflexivity. Qed.

(** ** Lemmas on the prelude *)

Section Prelude.

Lemma comprehension_fmap {A B} (f : A → B) (xs : list A) :
  comprehension f xs = f <$> xs.
Proof. induction xs as [|x xs IH]; simpl; [done|by rewrite IH]. Qed.

Lemma comprehension_if_filter {A B} (f : A → B) (p : A → bool) (xs : list A) :
  comprehension_if f p xs = f <$> filter (λ x, p x = true) xs.
Proof.
  induction xs as [|x xs IH]; simpl; [done|].
  rewrite filter_cons. destruct (p x) eqn:Hp.
  - rewrite decide_True by done. by rewrite fmap_cons, IH.
  - rewrite decide_False by (by intros ?). done.
Qed.

Lemma zip_length {A B} (xs : list A) (ys : list B) :
  length (zip xs ys) = length xs `min` length ys.
Proof.
  revert ys. induction xs as [|x xs IH]; intros [|y ys]; simpl; auto.
Qed.

Lemma zip_lookup {A B} (xs : list A) (ys : list B) i x y :
  xs !! i = Some x → ys !! i = Some y → zip xs ys !! i = Some (x, y).
Proof.
  revert ys i. induction xs as [|x' xs IH]; intros [|y' ys] [|i] Hx Hy;
    simplify_eq/=; eauto.
Qed.

Lemma join_cons_cons sep x y ls :
  join sep (x :: y :: ls) = x +:+ sep +:+ join sep (y :: ls).
Proof. reflexivity. Qed.

Lemma string_app_assoc (s1 s2 s3 : string) :
  (s1 +:+ s2) +:+ s3 = s1 +:+ (s2 +:+ s3).
Proof.
  induction s1 as [|a s1 IH]; [done|].
  change (String a ((s1 +:+ s2) +:+ s3) = String a (s1 +:+ (s2 +:+ s3))).
  by rewrite IH.
Qed.

Lemma truthy_opt_str_false o : truthy_opt truthy_str o = false ↔ absent o.
Proof.
  unfold absent. destruct o as [[|a s]|]; simpl; split; intros H;
    try done; auto; destruct H; congruence.
Qed.

Lemma truthy_list_true {A} (l : list A) : truthy_list l = true ↔ l ≠ [].
Proof. destruct l; simpl; split; intros; congruence. Qed.

Lemma contains_excluded c (ign : SetOrList) :
  contains c ign = true ↔ c ∈ excluded (Some ign).
Proof.
  destruct ign as [s|l]; simpl; rewrite bool_decide_eq_true;
    [done|by rewrite elem_of_list_to_set].
Qed.

Lemma falsy_coll_excluded (ign : SetOrList) :
  truthy_coll ign = false → excluded (Some ign) = ∅.
Proof.
  destruct ign as [s|[|x l]]; simpl; try done.
  rewrite negb_false_iff, bool_decide_eq_true. done.
Qed.

End Prelude.

(** ** Clause generators *)

(** C5. For a non-empty sequence of key columns k1, ..., kn,
    [_genIdCondition] returns exactly
    'target.k1 = source.k1 AND ... AND target.kn = source.kn', in input
    order; for the empty sequence it returns the empty string. *)
Theorem genIdCondition_and_chain :
  (∀ k1 ks, _genIdCondition (k1 :: ks) = and_chain k1 ks)
  ∧ _genIdCondition [] = "".
Proof.
  split; [|reflexivity].
  intros k1 ks. revert k1.
  induction ks as [|k2 ks IH]; intros k1; [reflexivity|].
  unfold _genIdCondition in *. simpl comprehension in *.
  rewrite join_cons_cons, IH. simpl and_chain.
  by rewrite !string_app_assoc.
Qed.

(** C6. [genCondition] called with no partition arguments returns the
    [_genIdCondition] of the key columns; when both partition arguments are
    given and non-empty it returns the id condition, then " AND ", then the
    [_genPartitionCondition] of the partition arguments. *)
Theorem genCondition_cases :
  (∀ keys, genCondition keys None None = Ok (_genIdCondition keys))
  ∧ (∀ keys partCols partVals,
       partCols ≠ [] → partVals ≠ [] →
       ∃ p, _genPartitionCondition (Some partCols) (Some partVals) = Ok p
            ∧ genCondition keys (Some partCols) (Some partVals)
              = Ok (_genIdCondition keys +:+ " AND " +:+ p)).
Proof.
  split; [reflexivity|].
  intros keys partCols partVals Hc Hv.
  eexists; split; [reflexivity|].
  unfold genCondition. simpl truthy_opt.
  apply truthy_list_true in Hc, Hv. by rewrite Hc, Hv.
Qed.

Lemma genCondition_cases_witness :
  ∃ p, _genPartitionCondition (Some ["RBUKRS"; "GJAHR"])
         (Some ["'S030'"; "'2025', '2024'"]) = Ok p
       ∧ genCondition ["BELNR"; "DOCLN"] (Some ["RBUKRS"; "GJAHR"])
           (Some ["'S030'"; "'2025', '2024'"])
         = Ok (_genIdCondition ["BELNR"; "DOCLN"] +:+ " AND " +:+ p).
Proof.
  apply (proj2 genCondition_cases ["BELNR"; "DOCLN"] ["RBUKRS"; "GJAHR"]
           ["'S030'"; "'2025', '2024'"]); discriminate.
Defined.

(** C7. [_genPartitionCondition] pairs partition columns and partition value
    lists by position, stops at the end of the shorter sequence, and returns
    one fragment 'target.<col> IN (<values>)' per pair, the values text
    unchanged, joined by " AND ". *)
Theorem genPartitionCondition_pairs (cols vals : list string) :
  ∃ frags : list string,
    _genPartitionCondition (Some cols) (Some vals) = Ok (join " AND " frags)
    ∧ length frags = length cols `min` length vals
    ∧ ∀ i col val,
        cols !! i = Some col → vals !! i = Some val →
        frags !! i = Some ("target." +:+ col +:+ " IN (" +:+ val +:+ ")").
Proof.
  eexists; split; [reflexivity|]. rewrite comprehension_fmap. split.
  - by rewrite length_fmap, zip_length.
  - intros i col val Hc Hv.
    by rewrite list_lookup_fmap, (zip_lookup _ _ _ _ _ Hc Hv).
Qed.

Lemma genPartitionCondition_pairs_witness :
  ∃ frags : list string,
    _genPartitionCondition (Some ["RBUKRS"; "GJAHR"; "RCLNT"])
      (Some ["'S030'"; "'2025', '2024'"]) = Ok (join " AND " frags)
    ∧ length frags = 2
    ∧ ∀ i col val,
        ["RBUKRS"; "GJAHR"; "RCLNT"] !! i = Some col →
        ["'S030'"; "'2025', '2024'"] !! i = Some val →
        frags !! i = Some ("target." +:+ col +:+ " IN (" +:+ val +:+ ")").
Proof.
  exact (genPartitionCondition_pairs ["RBUKRS"; "GJAHR"; "RCLNT"]
           ["'S030'"; "'2025', '2024'"]).
Defined.

(** C8. [genSet] returns the fragments '<col> = source.<col>' joined by ", "
    for exactly the columns that are not in the exclusion argument, in their
    input order; without an exclusion argument every column is included. *)
Theorem genSet_excludes :
  (∀ cols ign,
     ∃ kept : list string,
       genSet cols ign = join ", " ((λ c, c +:+ " = source." +:+ c) <$> kept)
       ∧ kept = filter (λ c, c ∉ excluded ign) cols
       ∧ kept `sublist_of` cols
       ∧ ∀ c, c ∈ kept ↔ c ∈ cols ∧ c ∉ excluded ign)
  ∧ (∀ cols,
       genSet cols None = join ", " ((λ c, c +:+ " = source." +:+ c) <$> cols)).
Proof.
  assert (Hmain : ∀ cols ign,
    genSet cols ign
    = join ", " ((λ c, c +:+ " = source." +:+ c)
                   <$> filter (λ c, c ∉ excluded ign) cols)).
  { intros cols ign. unfold genSet. rewrite comprehension_if_filter.
    do 2 f_equal. apply list_filter_iff. intros c.
    rewrite negb_true_iff, <- not_true_iff_false.
    destruct ign as [ign|]; simpl truthy_opt.
    - destruct (truthy_coll ign) eqn:Ht; simpl default.
      + by rewrite contains_excluded.
      + rewrite (falsy_coll_excluded _ Ht). simpl.
        rewrite bool_decide_eq_true. done.
    - simpl. rewrite bool_decide_eq_true. done. }
  split.
  - intros cols ign. eexists. split; [apply Hmain|].
    split; [done|]. split; [apply sublist_filter|].
    intros c. by rewrite list_elem_of_filter, (comm and).
  - intros cols. rewrite Hmain. do 2 f_equal.
    induction cols as [|c cols IH]; [done|].
    rewrite filter_cons, decide_True by set_solver. by rewrite IH.
Qed.

(** ** The writer: auxiliary facts *)

Section Writer.

Implicit Types w : MergeIntoWriter.

(** The three header lines of a statement. *)
Let header w : list string :=
  ["MERGE INTO " +:+ _tblName w +:+ " AS " +:+ _targetAs w;
   "USING " +:+ fmt_opt (_viewName w) +:+ " AS " +:+ _sourceAs w;
   "ON " +:+ fmt_opt (_condition w)].

Lemma recorded_nil w :
  recorded w = []
  ↔ _matchedActions w = [] ∧ _notMatchedActions w = []
    ∧ _notMatchedBySourceActions w = [].
Proof.
  unfold recorded. split.
  - intros H. apply app_eq_nil in H as [? H].
    apply app_eq_nil in H as [? ?]. done.
  - intros (-> & -> & ->). done.
Qed.

Lemma any_recorded w :
  any [truthy_list (_matchedActions w);
       truthy_list (_notMatchedActions w);
       truthy_list (_notMatchedBySourceActions w)] = false
  ↔ recorded w = [].
Proof.
  rewrite recorded_nil.
  destruct (_matchedActions w), (_notMatchedActions w),
    (_notMatchedBySourceActions w); simpl; split; intros H;
    try done; destruct H as (? & ? & ?); done.
Qed.

Lemma all_configured w :
  all [truthy_str (_tblName w);
       truthy_opt truthy_str (_viewName w);
       truthy_opt truthy_str (_condition w)] = false
  ↔ _tblName w = "" ∨ absent (_viewName w) ∨ absent (_condition w).
Proof.
  rewrite <- !truthy_opt_str_false.
  destruct (_tblName w) as [|a s]; simpl; [by intuition|].
  destruct (truthy_opt truthy_str (_viewName w)),
    (truthy_opt truthy_str (_condition w)); simpl;
    split; intros H; try done; auto; destruct H as [?|[?|?]]; done.
Qed.

(** [generate] takes exactly one of three ways out. *)
Lemma generate_cases w :
  ((_tblName w = "" ∨ absent (_viewName w) ∨ absent (_condition w))
   ∧ generate w = (Raise MissingConfigurationError, w))
  ∨ (¬ (_tblName w = "" ∨ absent (_viewName w) ∨ absent (_condition w))
     ∧ recorded w = []
     ∧ generate w = (Raise NoActionsError, w))
  ∨ (¬ (_tblName w = "" ∨ absent (_viewName w) ∨ absent (_condition w))
     ∧ recorded w ≠ []
     ∧ generate w
       = (Ok (join LF (header w ++ recorded w)), after _clearActions w)).
Proof.
  pose proof (all_configured w) as Hall.
  pose proof (any_recorded w) as Hany.
  unfold generate, bind, get. simpl fst.
  destruct (all _) eqn:Ea; simpl negb; cbv iota.
  - assert (Hc : ¬ (_tblName w = "" ∨ absent (_viewName w)
                    ∨ absent (_condition w))).
    { intros H. apply Hall in H. done. }
    destruct (any _) eqn:Eb; simpl negb; cbv iota.
    + right; right. split; [done|]. split.
      { intros H. apply Hany in H. done. }
      reflexivity.
    + right; left. split; [done|]. split; [by apply Hany|reflexivity].
  - left. split; [by apply Hall|reflexivity].
Qed.

Lemma present_inv (o : option string) :
  ¬ absent o → ∃ s, o = Some s ∧ s ≠ "".
Proof.
  unfold absent. destruct o as [s|]; intros H.
  - exists s. split; [done|]. intros ->. auto.
  - destruct H. auto.
Qed.

Lemma mutate_ok (m : mutator) w : outcome (mutate m) w = Ok tt.
Proof. destruct m as [?|?|[]]; reflexivity. Qed.

Lemma mutate_aliases (m : mutator) w :
  _targetAs (after (mutate m) w) = _targetAs w
  ∧ _sourceAs (after (mutate m) w) = _sourceAs w.
Proof. destruct m as [?|?|[]]; done. Qed.

Lemma generate_aliases w :
  _targetAs (after generate w) = _targetAs w
  ∧ _sourceAs (after generate w) = _sourceAs w.
Proof.
  unfold after.
  destruct (generate_cases w) as [[_ ->]|[(_ & _ & ->)|(_ & _ & ->)]]; done.
Qed.

(** No method assigns the two alias fields. *)
Lemma reachable_aliases w :
  reachable w → _targetAs w = "target" ∧ _sourceAs w = "source".
Proof.
  induction 1 as [tbl|w c _ [IHt IHs]]; [done|].
  destruct c as [m|].
  - simpl perform. destruct (mutate_aliases m w) as [-> ->]. done.
  - destruct (generate_aliases w) as [Ht Hs].
    unfold after, perform, bind, ret in *.
    destruct (generate w) as [[s|e] w']; simpl in *; by rewrite Ht, Hs.
Qed.

End Writer.

(** ** The writer: rendering *)

(** C1. On a writer whose target table, source relation and join condition
    are all set to non-empty text and which holds at least one action line,
    [generate] returns the lines 'MERGE INTO <table> AS target',
    'USING <source> AS source', 'ON <condition>', then the matched, the
    not-matched and the not-matched-by-source lines in their stored order,
    joined by newlines; afterwards the three action sequences are empty and
    the three configuration fields are as before. *)
Theorem generate_renders (w : MergeIntoWriter) (tbl v c : string) :
  reachable w →
  _tblName w = tbl → _viewName w = Some v → _condition w = Some c →
  tbl ≠ "" → v ≠ "" → c ≠ "" →
  recorded w ≠ [] →
  generate w
  = (Ok (join LF
           (["MERGE INTO " +:+ tbl +:+ " AS target";
             "USING " +:+ v +:+ " AS source";
             "ON " +:+ c]
              ++ _matchedActions w
              ++ _notMatchedActions w
              ++ _notMatchedBySourceActions w)%list),
     {| _targetAs := "target";
        _sourceAs := "source";
        _tblName := tbl;
        _viewName := Some v;
        _condition := Some c;
        _matchedActions := [];
        _notMatchedActions := [];
        _notMatchedBySourceActions := [] |}).
Proof.
  intros Hr Ht Hv Hc Htbl Hvn Hcn Hrec.
  destruct (reachable_aliases w Hr) as [Hta Hsa].
  destruct (generate_cases w) as [[H _]|[(_ & H & _)|(_ & _ & ->)]].
  - exfalso. unfold absent in H. rewrite Ht, Hv, Hc in H.
    destruct H as [?|[[?|?]|[?|?]]]; congruence.
  - done.
  - destruct w as [ta sa tbl' vo co m nm nmbs]. simpl in *. by subst.
Qed.

Lemma generate_renders_witness :
  generate sales_upsert
  = (Ok (join LF
           ["MERGE INTO lh.Sales AS target";
            "USING {df} AS source";
            "ON target.id = source.id";
            "WHEN MATCHED THEN UPDATE SET *";
            "WHEN NOT MATCHED THEN INSERT *"]),
     {| _targetAs := "target";
        _sourceAs := "source";
        _tblName := "lh.Sales";
        _viewName := Some "{df}";
        _condition := Some "target.id = source.id";
        _matchedActions := [];
        _notMatchedActions := [];
        _notMatchedBySourceActions := [] |}).
Proof.
  refine (generate_renders sales_upsert "lh.Sales" "{df}"
            "target.id = source.id" _ _ _ _ _ _ _ _).
  - do 4 apply reachable_call. apply reachable_init.
  - reflexivity.
  - reflexivity.
  - reflexivity.
  - discriminate.
  - discriminate.
  - discriminate.
  - discriminate.
Defined.

(** C2. [generate] raises the missing-configuration error exactly when the
    target table is empty or the source relation or the join condition is
    unset or empty; no mutator raises, and the constructor, [using] and [on]
    store the value they are given, the empty string included. *)
Theorem generate_missing_configuration :
  (∀ w, outcome generate w = Raise MissingConfigurationError
        ↔ _tblName w = "" ∨ absent (_viewName w) ∨ absent (_condition w))
  ∧ (∀ m w, outcome (mutate m) w = Ok tt)
  ∧ (∀ tblName, _tblName (__init__ tblName) = tblName)
  ∧ (∀ viewName w, _viewName (after (using_ viewName) w) = Some viewName)
  ∧ (∀ condition w, _condition (after (on condition) w) = Some condition).
Proof.
  split; [|by auto using mutate_ok].
  intros w. unfold outcome.
  destruct (generate_cases w) as [[H ->]|[(H & _ & ->)|(H & _ & ->)]];
    simpl; split; try done; intros; exfalso; auto.
Qed.

(** C3, as stated, at a freshly constructed writer: the three action
    sequences are empty, yet the error [generate] raises is the
    missing-configuration one. *)
Lemma generate_no_actions_unconfigured :
  ¬ (outcome generate (__init__ "lh.Sales") = Raise NoActionsError
     ↔ _matchedActions (__init__ "lh.Sales") = []
       ∧ _notMatchedActions (__init__ "lh.Sales") = []
       ∧ _notMatchedBySourceActions (__init__ "lh.Sales") = []).
Proof.
  intros [_ H]. specialize (H (conj eq_refl (conj eq_refl eq_refl))).
  vm_compute in H. discriminate H.
Qed.

(** C3, amended. [generate] raises the no-actions error exactly when the
    target table, source relation and join condition are all set and
    non-empty and all three action sequences are empty.  After a successful
    [generate] a second one raises the no-actions error, and after one more
    branch action [generate] succeeds again, with the same table, source
    relation and join condition in its first three lines. *)
Theorem generate_no_actions :
  (∀ w, outcome generate w = Raise NoActionsError
        ↔ ¬ (_tblName w = "" ∨ absent (_viewName w) ∨ absent (_condition w))
          ∧ _matchedActions w = []
          ∧ _notMatchedActions w = []
          ∧ _notMatchedBySourceActions w = [])
  ∧ (∀ w s,
       reachable w → outcome generate w = Ok s →
       outcome generate (after generate w) = Raise NoActionsError
       ∧ ∀ a, ∃ v c line,
           _viewName w = Some v ∧ _condition w = Some c
           ∧ recorded (after (act a) (after generate w)) = [line]
           ∧ outcome generate (after (act a) (after generate w))
             = Ok (join LF ["MERGE INTO " +:+ _tblName w +:+ " AS target";
                            "USING " +:+ v +:+ " AS source";
                            "ON " +:+ c;
                            line])).
Proof.
  split.
  - intros w. rewrite <- recorded_nil. unfold outcome.
    destruct (generate_cases w) as [[H ->]|[(H & Hr & ->)|(H & Hr & ->)]];
      simpl; split; try done; intros [? ?]; done.
  - intros w s Hr Hs.
    destruct (reachable_aliases w Hr) as [Hta Hsa].
    unfold outcome, after in *.
    destruct (generate_cases w) as [[_ Hg]|[(_ & _ & Hg)|(Hc & _ & Hg)]];
      rewrite Hg in *; simpl in Hs; try done.
    assert (Hv : ¬ absent (_viewName w)) by tauto.
    assert (Hcn : ¬ absent (_condition w)) by tauto.
    assert (Ht : _tblName w ≠ "") by tauto.
    apply present_inv in Hv as (v & Hv & Hvn).
    apply present_inv in Hcn as (c & Hcd & Hcn).
    destruct w as [ta sa tbl vo co m nm nmbs]; simpl in *; subst.
    destruct tbl as [|t0 tbl]; [done|].
    destruct v as [|v0 v]; [done|]. destruct c as [|c0 c]; [done|].
    split; [reflexivity|].
    intros a. exists (String v0 v), (String c0 c).
    destruct a; eexists; (split; [reflexivity|]); (split; [reflexivity|]);
      split; reflexivity.
Qed.

Lemma generate_no_actions_witness :
  outcome generate (after generate sales_upsert) = Raise NoActionsError.
Proof.
  refine (proj1 (proj2 generate_no_actions sales_upsert
    (join LF ["MERGE INTO lh.Sales AS target";
              "USING {df} AS source";
              "ON target.id = source.id";
              "WHEN MATCHED THEN UPDATE SET *";
              "WHEN NOT MATCHED THEN INSERT *"])
    _ _)).
  - do 4 apply reachable_call. apply reachable_init.
  - reflexivity.
Defined.

(** C4. [generate] either succeeds, returning the whole statement and
    leaving the three action sequences empty and the configuration as it
    was, or raises and leaves every field of the writer as it was. *)
Theorem generate_atomic (w : MergeIntoWriter) :
  reachable w →
  (∃ v c,
     _viewName w = Some v ∧ _condition w = Some c
     ∧ outcome generate w
       = Ok (join LF
               (["MERGE INTO " +:+ _tblName w +:+ " AS target";
                 "USING " +:+ v +:+ " AS source";
                 "ON " +:+ c]
                  ++ _matchedActions w
                  ++ _notMatchedActions w
                  ++ _notMatchedBySourceActions w)%list)
     ∧ after generate w
       = {| _targetAs := _targetAs w;
            _sourceAs := _sourceAs w;
            _tblName := _tblName w;
            _viewName := _viewName w;
            _condition := _condition w;
            _matchedActions := [];
            _notMatchedActions := [];
            _notMatchedBySourceActions := [] |})
  ∨ (∃ e, outcome generate w = Raise e ∧ after generate w = w).
Proof.
  intros Hr. destruct (reachable_aliases w Hr) as [Hta Hsa].
  unfold outcome, after.
  destruct (generate_cases w) as [[_ ->]|[(_ & _ & ->)|(Hc & _ & ->)]].
  - right. eauto.
  - right. eauto.
  - left.
    assert (Hv : ¬ absent (_viewName w)) by tauto.
    assert (Hcn : ¬ absent (_condition w)) by tauto.
    apply present_inv in Hv as (v & Hv & _).
    apply present_inv in Hcn as (c & Hcd & _).
    exists v, c. destruct w as [ta sa tbl vo co m nm nmbs].
    simpl in *. by subst.
Qed.

Lemma generate_atomic_witness :
  (∃ v c,
     _viewName sales_with_source = Some v
     ∧ _condition sales_with_source = Some c
     ∧ outcome generate sales_with_source
       = Ok (join LF
               (["MERGE INTO " +:+ _tblName sales_with_source +:+ " AS target";
                 "USING " +:+ v +:+ " AS source";
                 "ON " +:+ c]
                  ++ _matchedActions sales_with_source
                  ++ _notMatchedActions sales_with_source
                  ++ _notMatchedBySourceActions sales_with_source)%list)
     ∧ after generate sales_with_source
       = {| _targetAs := _targetAs sales_with_source;
            _sourceAs := _sourceAs sales_with_source;
            _tblName := _tblName sales_with_source;
            _viewName := _viewName sales_with_source;
            _condition := _condition sales_with_source;
            _matchedActions := [];
            _notMatchedActions := [];
            _notMatchedBySourceActions := [] |})
  ∨ (∃ e, outcome generate sales_with_source = Raise e
          ∧ after generate sales_with_source = sales_with_source).
Proof.
  apply (generate_atomic sales_with_source).
  apply reachable_call. apply reachable_init.
Defined.

(** ** The writer: branches *)

(** C9. For each of the three branch classes, an empty predicate gives the
    same plain prefix as no predicate ('WHEN MATCHED', 'WHEN NOT MATCHED',
    'WHEN NOT MATCHED BY SOURCE'), and no branch object, whatever its
    predicate, gives a prefix that ends at ' AND ' with nothing after it. *)
Theorem genWhen_empty_predicate :
  (WhenMatched._genWhen (WhenMatched.mk (Some "")) = "WHEN MATCHED"
   ∧ WhenMatched._genWhen (WhenMatched.mk None) = "WHEN MATCHED"
   ∧ ∀ b, WhenMatched._genWhen b ≠ "WHEN MATCHED AND ")
  ∧ (WhenNotMatched._genWhen (WhenNotMatched.mk (Some "")) = "WHEN NOT MATCHED"
     ∧ WhenNotMatched._genWhen (WhenNotMatched.mk None) = "WHEN NOT MATCHED"
     ∧ ∀ b, WhenNotMatched._genWhen b ≠ "WHEN NOT MATCHED AND ")
  ∧ (WhenNotMatchedBySource._genWhen (WhenNotMatchedBySource.mk (Some ""))
     = "WHEN NOT MATCHED BY SOURCE"
     ∧ WhenNotMatchedBySource._genWhen (WhenNotMatchedBySource.mk None)
       = "WHEN NOT MATCHED BY SOURCE"
     ∧ ∀ b, WhenNotMatchedBySource._genWhen b ≠ "WHEN NOT MATCHED BY SOURCE AND ").
Proof.
  repeat split; try reflexivity;
    intros [[[|a s]|]]; cbv; discriminate.
Qed.

(** C10. Opening a branch returns the branch object and leaves the writer
    as it is; each branch action appends one line to the action sequence of
    its own branch kind and leaves the other two sequences and the
    configuration fields as they are. *)
Theorem branch_actions_frame :
  (∀ cond w, whenMatched cond w = (Ok (WhenMatched.mk cond), w))
  ∧ (∀ cond w, whenNotMatched cond w = (Ok (WhenNotMatched.mk cond), w))
  ∧ (∀ cond w,
       whenNotMatchedBySource cond w = (Ok (WhenNotMatchedBySource.mk cond), w))
  ∧ (∀ b, appends_one Matched
            (WhenMatched._genWhen b +:+ " THEN UPDATE SET *")
            (WhenMatched.updateAll b))
  ∧ (∀ b set, appends_one Matched
                (WhenMatched._genWhen b +:+ " THEN UPDATE SET " +:+ set)
                (WhenMatched.updateExpr b set))
  ∧ (∀ b, appends_one Matched
            (WhenMatched._genWhen b +:+ " THEN DELETE")
            (WhenMatched.delete b))
  ∧ (∀ b, appends_one NotMatched
            (WhenNotMatched._genWhen b +:+ " THEN INSERT *")
            (WhenNotMatched.insertAll b))
  ∧ (∀ b values, appends_one NotMatched
                   (WhenNotMatched._genWhen b +:+ " THEN INSERT " +:+ values)
                   (WhenNotMatched.insertExpr b values))
  ∧ (∀ b, appends_one NotMatchedBySource
            (WhenNotMatchedBySource._genWhen b +:+ " THEN UPDATE SET *")
            (WhenNotMatchedBySource.updateAll b))
  ∧ (∀ b set, appends_one NotMatchedBySource
                (WhenNotMatchedBySource._genWhen b +:+ " THEN UPDATE SET " +:+ set)
                (WhenNotMatchedBySource.updateExpr b set))
  ∧ (∀ b, appends_one NotMatchedBySource
            (WhenNotMatchedBySource._genWhen b +:+ " THEN DELETE")
            (WhenNotMatchedBySource.delete b)).
Proof.
  repeat match goal with |- _ ∧ _ => split end;
    try (intros; reflexivity);
    intros; intros w; repeat split; intros [] ?; done.
Qed.

Lemma branch_actions_frame_witness :
  appends_one Matched "WHEN MATCHED AND source.gone = 1 THEN DELETE"
    (WhenMatched.delete (WhenMatched.mk (Some "source.gone = 1"))).
Proof.
  exact (proj1 (proj2 (proj2 (proj2 (proj2 (proj2 branch_actions_frame)))))
           (WhenMatched.mk (Some "source.gone = 1"))).
Defined.

(** ** Further facts: clause generators *)

Section Clauses.

Lemma genSet_filter (cols : list string) (ign : option SetOrList) :
  genSet cols ign
  = join ", " ((λ c, c +:+ " = source." +:+ c)
                 <$> filter (λ c, c ∉ excluded ign) cols).
Proof.
  unfold genSet. rewrite comprehension_if_filter.
  do 2 f_equal. apply list_filter_iff. intros c.
  rewrite negb_true_iff, <- not_true_iff_false.
  destruct ign as [ign|]; simpl truthy_opt.
  - destruct (truthy_coll ign) eqn:Ht; simpl default.
    + by rewrite contains_excluded.
    + rewrite (falsy_coll_excluded _ Ht). simpl.
      rewrite bool_decide_eq_true. done.
  - simpl. rewrite bool_decide_eq_true. done.
Qed.

Lemma string_app_nil_inv (s1 s2 : string) : s1 +:+ s2 = "" → s1 = "" ∧ s2 = "".
Proof. destruct s1; [done|]. intros H. discriminate H. Qed.

Lemma join_nil_inv (sep : string) (ls : list string) :
  Forall (λ s, s ≠ "") ls → join sep ls = "" → ls = [].
Proof.
  intros Hne Hj. destruct Hne as [|x ls Hx Hls]; [done|]. exfalso.
  destruct ls as [|y ls]; simpl in Hj; [done|].
  apply string_app_nil_inv in Hj as [? _]. done.
Qed.

Lemma zip_app_l {A B} (xs xs' : list A) (ys : list B) :
  length xs = length ys → zip (xs ++ xs')%list ys = zip xs ys.
Proof.
  revert ys. induction xs as [|x xs IH]; intros [|y ys] Hl;
    simplify_eq/=; [by destruct xs'|]. by rewrite IH.
Qed.

Lemma zip_app_r {A B} (xs : list A) (ys ys' : list B) :
  length xs = length ys → zip xs (ys ++ ys')%list = zip xs ys.
Proof.
  revert ys. induction xs as [|x xs IH]; intros [|y ys] Hl;
    simplify_eq/=; [done|]. by rewrite IH.
Qed.

End Clauses.

(** X1. [genSet] returns the empty string exactly when every column is
    excluded (in particular for no columns at all): an UPDATE SET built from
    it then has no assignment. *)
Theorem genSet_empty_iff (cols : list string) (ign : option SetOrList) :
  genSet cols ign = "" ↔ ∀ c, c ∈ cols → c ∈ excluded ign.
Proof.
  rewrite genSet_filter. split.
  - intros Hj c Hc. apply join_nil_inv in Hj.
    + apply fmap_nil_inv in Hj.
      destruct (decide (c ∈ excluded ign)) as [|Hn]; [done|].
      assert (c ∈ filter (λ c, c ∉ excluded ign) cols) as Hin
        by (by apply list_elem_of_filter).
      rewrite Hj in Hin. by apply elem_of_nil in Hin.
    + apply Forall_fmap, Forall_forall. intros x _ Hx. simpl in Hx.
      apply string_app_nil_inv in Hx as [_ Hx]. discriminate Hx.
  - intros Hall.
    assert (filter (λ c, c ∉ excluded ign) cols = []) as ->; [|done].
    apply elem_of_nil_inv. intros c Hc.
    apply list_elem_of_filter in Hc as [Hn Hc]. auto.
Qed.

(** X2. The text [genSet] returns depends on the exclusion argument only
    through the columns it names: a list and a set with the same members, or
    an empty collection and no argument, give the same result. *)
Theorem genSet_same_members (cols : list string) (ign1 ign2 : option SetOrList) :
  excluded ign1 = excluded ign2 → genSet cols ign1 = genSet cols ign2.
Proof. intros H. by rewrite !genSet_filter, H. Qed.

Lemma genSet_same_members_witness :
  genSet ["BELNR"; "GJAHR"; "__created_timestamp"]
    (Some (AsList ["__created_timestamp"; "__created_timestamp"]))
  = genSet ["BELNR"; "GJAHR"; "__created_timestamp"]
      (Some (AsSet {["__created_timestamp"]})).
Proof.
  apply (genSet_same_members ["BELNR"; "GJAHR"; "__created_timestamp"]
           (Some (AsList ["__created_timestamp"; "__created_timestamp"]))
           (Some (AsSet {["__created_timestamp"]}))).
  vm_compute. reflexivity.
Defined.

(** X3. [genCondition] never raises, although [_genPartitionCondition] does
    on a missing argument: when either partition argument is missing or
    empty, the other one is dropped without notice and the id condition
    alone is returned. *)
Theorem genCondition_drops_partition
    (keys : list string) (partCols partVals : option (list string)) :
  (∃ s, genCondition keys partCols partVals = Ok s)
  ∧ (partCols = None ∨ partCols = Some [] ∨ partVals = None ∨ partVals = Some []
     → genCondition keys partCols partVals = Ok (_genIdCondition keys))
  ∧ (_genPartitionCondition partCols None = Raise TypeError
     ∧ _genPartitionCondition None partVals = Raise TypeError).
Proof.
  split; [|split].
  - unfold genCondition.
    destruct partCols as [[|c cs]|], partVals as [[|v vs]|]; simpl; eauto.
  - unfold genCondition.
    intros [-> | [-> | [-> | ->]]]; simpl; try done;
      destruct partCols as [[|c cs]|]; done.
  - by destruct partCols, partVals.
Qed.

Lemma genCondition_drops_partition_witness :
  genCondition ["BELNR"] (Some ["RBUKRS"; "GJAHR"]) None
  = Ok (_genIdCondition ["BELNR"]).
Proof.
  apply (genCondition_drops_partition ["BELNR"] (Some ["RBUKRS"; "GJAHR"]) None).
  right. right. left. reflexivity.
Defined.

(** X4. With no key columns but both partition arguments present,
    [genCondition] returns a condition that begins with the connective
    " AND ". *)
Theorem genCondition_no_keys (partCols partVals : list string) :
  partCols ≠ [] → partVals ≠ [] →
  ∃ p, _genPartitionCondition (Some partCols) (Some partVals) = Ok p
       ∧ genCondition [] (Some partCols) (Some partVals) = Ok (" AND " +:+ p).
Proof.
  intros Hc Hv. eexists. split; [reflexivity|].
  unfold genCondition. simpl truthy_opt.
  apply truthy_list_true in Hc, Hv. by rewrite Hc, Hv.
Qed.

Lemma genCondition_no_keys_witness :
  ∃ p, _genPartitionCondition (Some ["GJAHR"]) (Some ["'2025'"]) = Ok p
       ∧ genCondition [] (Some ["GJAHR"]) (Some ["'2025'"]) = Ok (" AND " +:+ p).
Proof. apply (genCondition_no_keys ["GJAHR"] ["'2025'"]); discriminate. Defined.

(** X5. [_genPartitionCondition] ignores whatever one argument has beyond
    the length of the other: surplus partition columns, or surplus value
    lists, leave the result unchanged. *)
Theorem genPartitionCondition_surplus (cols vals extra : list string) :
  length cols = length vals →
  _genPartitionCondition (Some (cols ++ extra)%list) (Some vals)
  = _genPartitionCondition (Some cols) (Some vals)
  ∧ _genPartitionCondition (Some cols) (Some (vals ++ extra)%list)
    = _genPartitionCondition (Some cols) (Some vals).
Proof.
  intros Hl. unfold _genPartitionCondition.
  by rewrite zip_app_l, zip_app_r.
Qed.

Lemma genPartitionCondition_surplus_witness :
  _genPartitionCondition (Some (["RBUKRS"] ++ ["GJAHR"; "RCLNT"])%list) (Some ["'S030'"])
  = _genPartitionCondition (Some ["RBUKRS"]) (Some ["'S030'"])
  ∧ _genPartitionCondition (Some ["RBUKRS"]) (Some (["'S030'"] ++ ["GJAHR"; "RCLNT"])%list)
    = _genPartitionCondition (Some ["RBUKRS"]) (Some ["'S030'"]).
Proof.
  apply (genPartitionCondition_surplus ["RBUKRS"] ["'S030'"] ["GJAHR"; "RCLNT"]).
  reflexivity.
Defined.

(** ** Further facts: the writer *)

Section Runs.

Implicit Types (w : MergeIntoWriter) (a : action) (k : branch).

Lemma writer_ext w1 w2 :
  _targetAs w1 = _targetAs w2 → _sourceAs w1 = _sourceAs w2 →
  configuration w1 = configuration w2 →
  (∀ k, actions_of k w1 = actions_of k w2) →
  w1 = w2.
Proof.
  destruct w1, w2. unfold configuration. simpl. intros -> -> [= -> -> ->] H.
  pose proof (H Matched) as H1. pose proof (H NotMatched) as H2.
  pose proof (H NotMatchedBySource) as H3. simpl in *. by subst.
Qed.

Lemma act_step a w : act a w = (Ok tt, after (act a) w).
Proof. by destruct a. Qed.

Lemma act_actions_of a w k :
  actions_of k (after (act a) w)
  = (actions_of k w ++ if decide (kind_of a = k) then [line_of a] else [])%list.
Proof. destruct a, k; simpl; by rewrite ?app_nil_r. Qed.

Lemma act_frame a w :
  _targetAs (after (act a) w) = _targetAs w
  ∧ _sourceAs (after (act a) w) = _sourceAs w
  ∧ configuration (after (act a) w) = configuration w.
Proof. by destruct a. Qed.

Lemma act_all_cons a acts w :
  act_all (a :: acts) w = act_all acts (after (act a) w).
Proof. simpl. unfold bind. by rewrite act_step. Qed.

Lemma act_all_ok acts w : outcome (act_all acts) w = Ok tt.
Proof.
  unfold outcome. revert w. induction acts as [|a acts IH]; intros w; [done|].
  by rewrite act_all_cons.
Qed.

Lemma act_all_actions_of acts w k :
  actions_of k (after (act_all acts) w)
  = (actions_of k w ++ lines_for k acts)%list.
Proof.
  unfold after, lines_for. revert w.
  induction acts as [|a acts IH]; intros w; [by rewrite app_nil_r|].
  rewrite act_all_cons, IH. fold (after (act a) w).
  rewrite act_actions_of, filter_cons.
  destruct (decide (kind_of a = k)); simpl; by rewrite <- ?app_assoc, ?app_nil_r.
Qed.

Lemma act_all_frame acts w :
  _targetAs (after (act_all acts) w) = _targetAs w
  ∧ _sourceAs (after (act_all acts) w) = _sourceAs w
  ∧ configuration (after (act_all acts) w) = configuration w.
Proof.
  unfold after. revert w. induction acts as [|a acts IH]; intros w; [done|].
  rewrite act_all_cons. destruct (IH (after (act a) w)) as (-> & -> & ->).
  apply act_frame.
Qed.

Lemma configuration_absent w1 w2 :
  configuration w1 = configuration w2 →
  (_tblName w1 = "" ∨ absent (_viewName w1) ∨ absent (_condition w1))
  ↔ (_tblName w2 = "" ∨ absent (_viewName w2) ∨ absent (_condition w2)).
Proof. unfold configuration. by intros [= -> -> ->]. Qed.

Lemma line_of_shape a :
  ∃ guard body,
    line_of a = plain_prefix (kind_of a) +:+ guard +:+ " THEN " +:+ body.
Proof.
  destruct a as [[c]|[c] s|[c]|[c]|[c] s|[c]|[c] s|[c]]; simpl;
    unfold WhenMatched._genWhen, WhenNotMatched._genWhen,
      WhenNotMatchedBySource._genWhen; simpl;
    (destruct (truthy_opt truthy_str c);
     [ exists (" AND " +:+ fmt_opt c) | exists "" ];
     eexists; rewrite ?string_app_assoc; reflexivity).
Qed.

End Runs.

Section RunsOfCalls.

Implicit Types (w : MergeIntoWriter) (a : action) (k : branch).

Lemma clearActions_fields w :
  _targetAs (after _clearActions w) = _targetAs w
  ∧ _sourceAs (after _clearActions w) = _sourceAs w
  ∧ configuration (after _clearActions w) = configuration w
  ∧ ∀ k, actions_of k (after _clearActions w) = [].
Proof. repeat split. by intros []. Qed.

Lemma recorded_actions_of w :
  recorded w = (actions_of Matched w ++ actions_of NotMatched w
                  ++ actions_of NotMatchedBySource w)%list.
Proof. reflexivity. Qed.

Lemma recorded_nil_actions_of w : recorded w = [] ↔ ∀ k, actions_of k w = [].
Proof.
  rewrite recorded_nil. split.
  - intros (? & ? & ?) []; done.
  - intros H. repeat split; [apply (H Matched)|apply (H NotMatched)|
                               apply (H NotMatchedBySource)].
Qed.

Lemma generate_after w :
  after generate w = w ∨ after generate w = after _clearActions w.
Proof.
  unfold after at 1 2.
  destruct (generate_cases w) as [[_ ->]|[(_ & _ & ->)|(_ & _ & ->)]]; auto.
Qed.

Lemma perform_generate_after w : after (perform Generate) w = after generate w.
Proof.
  unfold after, perform, bind, ret.
  by destruct (generate w) as [[s|e] w'].
Qed.

Lemma mutate_actions_of (m : mutator) w k :
  actions_of k (after (mutate m) w)
  = match m with
    | Act a =>
        (actions_of k w ++ if decide (kind_of a = k) then [line_of a] else [])%list
    | _ => actions_of k w
    end.
Proof. destruct m as [v|c|a]; [by destruct k..|]. apply act_actions_of. Qed.

Lemma lines_for_not_nil acts :
  acts ≠ [] → ∃ k, lines_for k acts ≠ [].
Proof.
  destruct acts as [|a acts]; [done|]. intros _. exists (kind_of a).
  unfold lines_for. rewrite filter_cons, decide_True by done. done.
Qed.

End RunsOfCalls.

(** X6. Of several [using] calls, or several [on] calls, only the last one
    counts; [using], [on] and the branch actions can be called in any order
    relative to each other without changing the writer they leave. *)
Theorem configuration_calls_commute
    (w : MergeIntoWriter) (v1 v2 c1 c2 : string) (a : action) :
  after (using_ v2) (after (using_ v1) w) = after (using_ v2) w
  ∧ after (on c2) (after (on c1) w) = after (on c2) w
  ∧ after (on c1) (after (using_ v1) w) = after (using_ v1) (after (on c1) w)
  ∧ after (act a) (after (using_ v1) w) = after (using_ v1) (after (act a) w)
  ∧ after (act a) (after (on c1) w) = after (on c1) (after (act a) w).
Proof. repeat split; by destruct a. Qed.

(** X7. A run of branch actions never raises; it leaves the configuration
    as it was and, for each branch kind, extends the stored sequence by the
    lines of the actions of that kind, in the order of the calls. *)
Theorem act_all_call_order (acts : list action) (w : MergeIntoWriter) (k : branch) :
  outcome (act_all acts) w = Ok tt
  ∧ actions_of k (after (act_all acts) w)
    = (actions_of k w ++ lines_for k acts)%list
  ∧ configuration (after (act_all acts) w) = configuration w.
Proof.
  split; [apply act_all_ok|]. split; [apply act_all_actions_of|].
  apply act_all_frame.
Qed.

(** X8. Two runs of branch actions that agree, for every branch kind, on
    the lines of that kind and their order leave the same writer, so the
    statement rendered afterwards is the same: how calls of different kinds
    are interleaved does not matter. *)
Theorem act_all_interleaving (acts1 acts2 : list action) (w : MergeIntoWriter) :
  (∀ k, lines_for k acts1 = lines_for k acts2) →
  after (act_all acts1) w = after (act_all acts2) w
  ∧ generate (after (act_all acts1) w) = generate (after (act_all acts2) w).
Proof.
  intros H.
  assert (after (act_all acts1) w = after (act_all acts2) w) as ->; [|done].
  destruct (act_all_frame acts1 w) as (Ht1 & Hs1 & Hc1).
  destruct (act_all_frame acts2 w) as (Ht2 & Hs2 & Hc2).
  apply writer_ext; try congruence.
  intros k. by rewrite !act_all_actions_of, H.
Qed.

Lemma act_all_interleaving_witness :
  after (act_all [MatchedDelete (WhenMatched.mk (Some "source.gone = 1"));
                  NotMatchedInsertAll (WhenNotMatched.mk None);
                  MatchedUpdateAll (WhenMatched.mk None)]) sales_configured
  = after (act_all [NotMatchedInsertAll (WhenNotMatched.mk None);
                    MatchedDelete (WhenMatched.mk (Some "source.gone = 1"));
                    MatchedUpdateAll (WhenMatched.mk None)]) sales_configured
  ∧ generate
      (after (act_all [MatchedDelete (WhenMatched.mk (Some "source.gone = 1"));
                       NotMatchedInsertAll (WhenNotMatched.mk None);
                       MatchedUpdateAll (WhenMatched.mk None)]) sales_configured)
    = generate
        (after (act_all [NotMatchedInsertAll (WhenNotMatched.mk None);
                         MatchedDelete (WhenMatched.mk (Some "source.gone = 1"));
                         MatchedUpdateAll (WhenMatched.mk None)]) sales_configured).
Proof.
  apply (act_all_interleaving
           [MatchedDelete (WhenMatched.mk (Some "source.gone = 1"));
            NotMatchedInsertAll (WhenNotMatched.mk None);
            MatchedUpdateAll (WhenMatched.mk None)]
           [NotMatchedInsertAll (WhenNotMatched.mk None);
            MatchedDelete (WhenMatched.mk (Some "source.gone = 1"));
            MatchedUpdateAll (WhenMatched.mk None)]
           sales_configured).
  intros k. destruct k; vm_compute; reflexivity.
Defined.

(** X9. [generate] never succeeds twice in a row: called again right after
    itself it raises; and after a failed [generate] the same call fails
    again with the same exception and the same writer. *)
Theorem generate_not_twice (w : MergeIntoWriter) :
  (∃ e, outcome generate (after generate w) = Raise e)
  ∧ (∀ e, outcome generate w = Raise e →
          generate (after generate w) = (Raise e, w)).
Proof.
  split.
  - destruct (generate_after w) as [Hw|Hw].
    + unfold outcome, after in *.
      destruct (generate_cases w) as [[_ Hg]|[(_ & _ & Hg)|(_ & Hr & Hg)]];
        rewrite Hg in *; simpl in *; rewrite ?Hg; simpl; eauto.
      exfalso. apply Hr. rewrite <- Hw.
      apply recorded_nil_actions_of, clearActions_fields.
    + rewrite Hw. unfold outcome.
      destruct (generate_cases (after _clearActions w))
        as [[_ ->]|[(_ & _ & ->)|(_ & Hr & _)]]; simpl; eauto.
      exfalso. apply Hr. apply recorded_nil_actions_of, clearActions_fields.
  - intros e He. unfold outcome, after in *.
    destruct (generate_cases w) as [[_ Hg]|[(_ & _ & Hg)|(_ & _ & Hg)]];
      rewrite Hg in *; simpl in *; by simplify_eq.
Qed.

Lemma generate_not_twice_witness :
  generate (after generate sales_with_source)
  = (Raise MissingConfigurationError, sales_with_source).
Proof.
  apply (generate_not_twice sales_with_source). reflexivity.
Defined.



(** X11. Branch actions alone never make a writer renderable: on the writer
    [Dataset.mergeInto] returns, after any run of branch actions, [generate]
    raises the missing-configuration error and keeps every recorded line. *)
Theorem mergeInto_needs_configuration (tblName : string) (acts : list action) :
  generate (after (act_all acts) (Dataset.mergeInto tblName))
  = (Raise MissingConfigurationError,
     after (act_all acts) (Dataset.mergeInto tblName)).
Proof.
  destruct (act_all_frame acts (Dataset.mergeInto tblName)) as (_ & _ & Hc).
  destruct (generate_cases (after (act_all acts) (Dataset.mergeInto tblName)))
    as [[_ ->]|[(Hn & _)|(Hn & _)]]; [done|..]; exfalso; apply Hn;
    unfold configuration in Hc; injection Hc as _ Hv _;
    right; left; left; exact Hv.
Qed.

(** X12. A configured writer with no recorded lines is a reusable template:
    after a non-empty run of branch actions [generate] succeeds, and
    repeating the same run and [generate] afterwards yields the same
    statement again. *)
Theorem generate_reuse (w : MergeIntoWriter) (acts : list action) :
  ¬ (_tblName w = "" ∨ absent (_viewName w) ∨ absent (_condition w)) →
  recorded w = [] → acts ≠ [] →
  ∃ sql,
    outcome generate (after (act_all acts) w) = Ok sql
    ∧ after generate (after (act_all acts) w) = w
    ∧ outcome generate
        (after (act_all acts) (after generate (after (act_all acts) w)))
      = Ok sql.
Proof.
  intros Hcfg Hrec Hacts.
  set (w1 := after (act_all acts) w).
  destruct (act_all_frame acts w) as (Ht & Hs & Hc). fold w1 in Ht, Hs, Hc.
  assert (Hrec1 : recorded w1 ≠ []).
  { intros H. rewrite recorded_nil_actions_of in H.
    destruct (lines_for_not_nil acts Hacts) as [k Hk]. apply Hk.
    specialize (H k). unfold w1 in H. rewrite act_all_actions_of in H.
    by apply app_eq_nil in H as [_ ?]. }
  assert (Hw : after generate w1 = w ∧ ∃ sql, outcome generate w1 = Ok sql).
  { unfold outcome, after at 1.
    destruct (generate_cases w1) as [[H _]|[(_ & H & _)|(_ & _ & ->)]].
    - exfalso. apply Hcfg. by apply (configuration_absent w1 w).
    - done.
    - simpl. split; [|eauto].
      destruct (clearActions_fields w1) as (Ht' & Hs' & Hc' & Hnil).
      apply writer_ext; try congruence.
      intros k. rewrite Hnil. symmetry.
      by apply recorded_nil_actions_of. }
  destruct Hw as [Hw [sql Hsql]]. exists sql. by rewrite Hw.
Qed.

Lemma generate_reuse_witness :
  ∃ sql,
    outcome generate
      (after (act_all [MatchedUpdateAll (WhenMatched.mk None)]) sales_configured)
    = Ok sql
    ∧ after generate
        (after (act_all [MatchedUpdateAll (WhenMatched.mk None)]) sales_configured)
      = sales_configured
    ∧ outcome generate
        (after (act_all [MatchedUpdateAll (WhenMatched.mk None)])
           (after generate
              (after (act_all [MatchedUpdateAll (WhenMatched.mk None)])
                 sales_configured)))
      = Ok sql.
Proof.
  apply (generate_reuse sales_configured [MatchedUpdateAll (WhenMatched.mk None)]).
  - unfold absent. simpl. intros [H|[[H|H]|[H|H]]]; discriminate H.
  - reflexivity.
  - discriminate.
Defined.

(** ** Further facts: the catalog *)

Section CatalogFacts.

Import Catalog.

Lemma getTablesName_filter (tables : list Table) :
  getTablesName tables = name <$> filter (λ t, tableType t = "MANAGED") tables.
Proof.
  unfold getTablesName. rewrite comprehension_if_filter. f_equal.
  apply list_filter_iff. intros t. apply String.eqb_eq.
Qed.

Lemma getViewsName_filter (tables : list Table) :
  getViewsName tables = name <$> filter (λ t, tableType t = "VIEW") tables.
Proof.
  unfold getViewsName. rewrite comprehension_if_filter. f_equal.
  apply list_filter_iff. intros t. apply String.eqb_eq.
Qed.

Lemma NoDup_fmap_eq {A B} (f : A → B) (l : list A) (x y : A) :
  NoDup (f <$> l) → x ∈ l → y ∈ l → f x = f y → x = y.
Proof.
  induction l as [|z l IH]; [by intros _ ?%elem_of_nil|].
  rewrite fmap_cons, NoDup_cons.
  intros [Hz Hnd] [->|Hx]%elem_of_cons [->|Hy]%elem_of_cons Hf; auto.
  - exfalso. apply Hz. rewrite Hf. by apply list_elem_of_fmap_2.
  - exfalso. apply Hz. rewrite <- Hf. by apply list_elem_of_fmap_2.
Qed.

End CatalogFacts.

(** X13. Every listed entry is counted once: the names [getTablesName]
    returns, the names [getViewsName] returns and the entries whose type is
    neither 'MANAGED' nor 'VIEW' (which both functions leave out) add up to
    the number of entries. *)
Theorem catalog_names_partition (tables : list Catalog.Table) :
  length (Catalog.getTablesName tables)
  + length (Catalog.getViewsName tables)
  + length (filter (λ t, Catalog.tableType t ≠ "MANAGED"
                         ∧ Catalog.tableType t ≠ "VIEW") tables)
  = length tables.
Proof.
  rewrite getTablesName_filter, getViewsName_filter, !length_fmap.
  induction tables as [|t tables IH]; [done|].
  rewrite !filter_cons.
  destruct (decide (Catalog.tableType t = "MANAGED")) as [Hm|Hm].
  - rewrite (decide_False (P := Catalog.tableType t = "VIEW"))
      by (rewrite Hm; discriminate).
    rewrite decide_False by (intros [? _]; done).
    simpl. lia.
  - destruct (decide (Catalog.tableType t = "VIEW")) as [Hv|Hv].
    + rewrite decide_False by (intros [_ ?]; done). simpl. lia.
    + rewrite decide_True by done. simpl. lia.
Qed.

(** X14. When the listed entries have distinct names, neither function
    returns a name twice and no name is returned by both. *)
Theorem catalog_names_disjoint (tables : list Catalog.Table) :
  NoDup (Catalog.name <$> tables) →
  NoDup (Catalog.getTablesName tables)
  ∧ NoDup (Catalog.getViewsName tables)
  ∧ ∀ n, n ∈ Catalog.getTablesName tables → n ∉ Catalog.getViewsName tables.
Proof.
  intros Hnd. rewrite getTablesName_filter, getViewsName_filter.
  split; [|split].
  - apply (sublist_NoDup _ (Catalog.name <$> tables));
      [exact Hnd|apply fmap_sublist, sublist_filter].
  - apply (sublist_NoDup _ (Catalog.name <$> tables));
      [exact Hnd|apply fmap_sublist, sublist_filter].
  - intros n (t & -> & [Ht Hin]%list_elem_of_filter)%list_elem_of_fmap
             (t' & Hn & [Ht' Hin']%list_elem_of_filter)%list_elem_of_fmap.
    assert (t = t') as <- by (by eapply NoDup_fmap_eq).
    rewrite Ht in Ht'. discriminate Ht'.
Qed.

Lemma catalog_names_disjoint_witness :
  NoDup (Catalog.getTablesName
           [Catalog.mkTable "Ticket" "MANAGED";
            Catalog.mkTable "V_TicketUsageInZone" "VIEW";
            Catalog.mkTable "Staging" "EXTERNAL"])
  ∧ NoDup (Catalog.getViewsName
             [Catalog.mkTable "Ticket" "MANAGED";
              Catalog.mkTable "V_TicketUsageInZone" "VIEW";
              Catalog.mkTable "Staging" "EXTERNAL"])
  ∧ ∀ n, n ∈ Catalog.getTablesName
               [Catalog.mkTable "Ticket" "MANAGED";
                Catalog.mkTable "V_TicketUsageInZone" "VIEW";
                Catalog.mkTable "Staging" "EXTERNAL"]
         → n ∉ Catalog.getViewsName
                 [Catalog.mkTable "Ticket" "MANAGED";
                  Catalog.mkTable "V_TicketUsageInZone" "VIEW";
                  Catalog.mkTable "Staging" "EXTERNAL"].
Proof.
  apply (catalog_names_disjoint
           [Catalog.mkTable "Ticket" "MANAGED";
            Catalog.mkTable "V_TicketUsageInZone" "VIEW";
            Catalog.mkTable "Staging" "EXTERNAL"]).
  apply (bool_decide_unpack _). vm_compute. exact I.
Defined.

(** ** Further facts: writing data frames *)

Section DatasetFacts.

Import Dataset.

Lemma not_save_config (cfg : list WriterCall) :
  Forall (λ c, match c with Wsave _ | WsaveAsTable _ => False | _ => True end) cfg →
  ∀ c, c ∈ cfg → ¬ is_save c.
Proof.
  intros H c Hc. rewrite Forall_forall in H. specialize (H c Hc).
  destruct c; simpl in *; tauto.
Qed.

(** Whether a list of calls holds configuration calls only. *)
Lemma config_only_nil : ∀ c : WriterCall, c ∈ [] → ¬ is_save c.
Proof. intros c Hc. by apply elem_of_nil in Hc. Qed.

Lemma config_only_app (cfg1 cfg2 : list WriterCall) :
  (∀ c, c ∈ cfg1 → ¬ is_save c) → (∀ c, c ∈ cfg2 → ¬ is_save c) →
  ∀ c, c ∈ (cfg1 ++ cfg2)%list → ¬ is_save c.
Proof. intros H1 H2 c [?|?]%elem_of_app; auto. Qed.

(** A step [if x: writer = writer.call(x.value)] for an argument annotated
    with an enumeration or a string. *)
Lemma enum_step {E} (value : E → string) (mk : string → WriterCall)
    (x : option (EnumOrString E)) (writer : list WriterCall) :
  (∀ v, ¬ is_save (mk v)) →
  let step :=
    if_truthy truthy_arg x
      (λ a, wbind (wlift (value_of value a)) (λ v, wcall (mk v))) in
  (nonempty_string x ∧ ∃ e, step writer = (Raises e, writer))
  ∨ (¬ nonempty_string x
     ∧ ∃ cfg, step writer = (Returns tt, (writer ++ cfg)%list)
              ∧ ∀ c, c ∈ cfg → ¬ is_save c).
Proof.
  intros Hmk step. subst step. unfold nonempty_string.
  destruct x as [[e|[|a s]]|]; cbn.
  - right. split; [by intros (s & ? & _)|].
    exists [mk (value e)]. split; [done|].
    intros c ->%list_elem_of_singleton. apply Hmk.
  - right. split; [by intros (s & [= <-] & ?)|].
    exists []. rewrite app_nil_r. split; [done|apply config_only_nil].
  - left. split; [by eexists|]. by eexists.
  - right. split; [by intros (s & ? & _)|].
    exists []. rewrite app_nil_r. split; [done|apply config_only_nil].
Qed.

(** A step [if x: writer = writer.call(x)]. *)
Lemma plain_step {A} (truthy : A → bool) (mk : A → WriterCall)
    (x : option A) (writer : list WriterCall) :
  (∀ a, ¬ is_save (mk a)) →
  ∃ cfg, if_truthy truthy x (λ a, wcall (mk a)) writer
         = (Returns tt, (writer ++ cfg)%list)
         ∧ ∀ c, c ∈ cfg → ¬ is_save c.
Proof.
  intros Hmk. unfold if_truthy. destruct x as [a|].
  - destruct (truthy a).
    + exists [mk a]. split; [done|].
      intros c ->%list_elem_of_singleton. apply Hmk.
    + exists []. rewrite app_nil_r. split; [done|apply config_only_nil].
  - exists []. rewrite app_nil_r. split; [done|apply config_only_nil].
Qed.

(** The body the two writing methods share, up to their last call. *)
Let write_with (last : WriterCall)
    (format : option (EnumOrString Format))
    (mode : option (EnumOrString SaveMode))
    (cols : option (list string)) (opts : option (gmap string string))
  : W unit :=
  wbind (if_truthy truthy_arg format
           (λ format, wbind (wlift (value_of Format_value format))
                        (λ v, wcall (Wformat v))))
    (λ _,
  wbind (if_truthy truthy_arg mode
           (λ mode, wbind (wlift (value_of SaveMode_value mode))
                      (λ v, wcall (Wmode v))))
    (λ _,
  wbind (if_truthy truthy_list cols (λ cols, wcall (WpartitionBy cols)))
    (λ _,
  wbind (if_truthy truthy_dict opts (λ opts, wcall (Woptions opts)))
    (λ _,
  wcall last)))).

(** They fail on a string argument with at least one character, and
    otherwise make configuration calls followed by the last call. *)
Lemma write_with_calls
    (format : option (EnumOrString Format))
    (mode : option (EnumOrString SaveMode))
    (cols : option (list string)) (opts : option (gmap string string)) :
  ((nonempty_string format ∨ nonempty_string mode)
   ∧ ∃ e cfg,
       (∀ c, c ∈ cfg → ¬ is_save c)
       ∧ ∀ last, write_with last format mode cols opts [] = (Raises e, cfg))
  ∨ (¬ (nonempty_string format ∨ nonempty_string mode)
     ∧ ∃ cfg,
         (∀ c, c ∈ cfg → ¬ is_save c)
         ∧ ∀ last, write_with last format mode cols opts []
                   = (Returns tt, (cfg ++ [last])%list)).
Proof.
  unfold write_with.
  destruct (enum_step Format_value Wformat format []) as
    [[Hf (e & He)]|[Hf (c1 & H1 & Hc1)]]; [by intros ? []| |].
  { left. split; [by left|]. exists e, [].
    split; [apply config_only_nil|]. intros last.
    unfold wbind at 1. by rewrite He. }
  destruct (enum_step SaveMode_value Wmode mode ([] ++ c1)%list) as
    [[Hm (e & He)]|[Hm (c2 & H2 & Hc2)]]; [by intros ? []| |].
  { left. split; [by right|]. exists e, ([] ++ c1)%list.
    split; [by apply config_only_app; [apply config_only_nil|]|].
    intros last. unfold wbind at 1. rewrite H1. unfold wbind at 1.
    by rewrite He. }
  destruct (plain_step truthy_list WpartitionBy cols (([] ++ c1) ++ c2)%list)
    as (c3 & H3 & Hc3); [by intros ? []|].
  destruct (plain_step truthy_dict Woptions opts
              ((([] ++ c1) ++ c2) ++ c3)%list)
    as (c4 & H4 & Hc4); [by intros ? []|].
  right. split; [by intros [?|?]|].
  exists (c1 ++ c2 ++ c3 ++ c4)%list.
  split; [repeat apply config_only_app; done|]. intros last.
  unfold wbind at 1. rewrite H1. unfold wbind at 1. rewrite H2.
  unfold wbind at 1. rewrite H3. unfold wbind at 1. rewrite H4.
  unfold wcall. by rewrite !app_nil_l, <- !app_assoc.
Qed.

Lemma writeDF_with path format mode cols opts :
  writeDF path format mode cols opts
  = write_with (Wsave path) format mode cols opts.
Proof. reflexivity. Qed.

Lemma writeTable_with tblName format mode cols opts :
  writeTable tblName format mode cols opts
  = write_with (WsaveAsTable tblName) format mode cols opts.
Proof. reflexivity. Qed.

End DatasetFacts.




(** ** Further facts: dates and timestamps *)

Section FunctionsFacts.

Import Functions.

Context (lib : Library).

Lemma shift_part_lookup (part : string) :
  (part ∈ shift_parts → _TIMESTAMP_PART !! part = Some (part +:+ "s"))
  ∧ (part ∉ shift_parts → _TIMESTAMP_PART !! part = None).
Proof.
  split.
  - unfold shift_parts. rewrite !elem_of_cons, elem_of_nil.
    intros [->|[->|[->|[->|[->|[->|[->|[->|[]]]]]]]]]; by vm_compute.
  - intros Hn. apply not_elem_of_list_to_map_1. exact Hn.
Qed.

Lemma shiftTime_part (expr : value) (n : Z) (part funcName : string) (add : bool) :
  (part ∈ shift_parts →
   _shiftTime lib expr n part funcName add
   = if add then add_relativedelta lib expr (mkRelativedelta (part +:+ "s") n)
     else sub_relativedelta lib expr (mkRelativedelta (part +:+ "s") n))
  ∧ (part ∉ shift_parts →
     _shiftTime lib expr n part funcName add
     = Raises (PartError (__name__ +:+ "." +:+ funcName +:+ "()"))).
Proof.
  destruct (shift_part_lookup part) as [Hin Hout]. unfold _shiftTime. split.
  - intros H. rewrite (Hin H).
    assert (truthy_str (part +:+ "s") = true) as ->; [|done].
    destruct part; done.
  - intros H. by rewrite (Hout H).
Qed.

Lemma slice_to_length (n : nat) (s : string) :
  (String.length (slice_to n s) ≤ n)%nat.
Proof.
  revert s. induction n as [|n IH]; intros [|c s]; simpl; try lia.
  specialize (IH s). lia.
Qed.

Lemma re_sub_nondigit_length (s : string) :
  (String.length (re_sub_nondigit s) ≤ String.length s)%nat.
Proof.
  induction s as [|c s IH]; simpl; [lia|].
  destruct (is_decimal_digit c); simpl; lia.
Qed.

Lemma re_sub_nondigit_digits (s : string) : all_digits (re_sub_nondigit s).
Proof.
  induction s as [|c s IH]; simpl; [done|].
  destruct (is_decimal_digit c) eqn:Hc; simpl; auto.
Qed.

Lemma re_sub_nondigit_slice (n m : nat) (s : string) :
  (n ≤ m)%nat →
  ∃ rest, re_sub_nondigit (slice_to m s)
          = re_sub_nondigit (slice_to n s) +:+ rest.
Proof.
  revert m s. induction n as [|n IH]; intros m s Hle.
  - exists (re_sub_nondigit (slice_to m s)). by destruct s.
  - destruct m as [|m]; [lia|]. destruct s as [|c s]; [by exists ""|].
    destruct (IH m s) as [rest Hrest]; [lia|]. exists rest. simpl.
    destruct (is_decimal_digit c); [|done].
    rewrite Hrest. reflexivity.
Qed.

Lemma re_sub_nondigit_all_digits (s : string) :
  all_digits s → re_sub_nondigit s = s.
Proof.
  induction s as [|c s IH]; [done|]. simpl. intros [-> Hs]. by rewrite IH.
Qed.

Lemma re_sub_nondigit_app (s1 s2 : string) :
  re_sub_nondigit (s1 +:+ s2) = re_sub_nondigit s1 +:+ re_sub_nondigit s2.
Proof.
  induction s1 as [|c s1 IH]; [done|].
  change (String c s1 +:+ s2) with (String c (s1 +:+ s2)). simpl.
  destruct (is_decimal_digit c); rewrite IH; reflexivity.
Qed.

Lemma slice_to_app (s1 s2 : string) (n : nat) :
  slice_to (String.length s1 + n) (s1 +:+ s2) = s1 +:+ slice_to n s2.
Proof.
  induction s1 as [|c s1 IH]; [done|].
  change (String c s1 +:+ s2) with (String c (s1 +:+ s2)). simpl.
  rewrite IH. reflexivity.
Qed.

(** X17. Every timestamp function raises its own TypeError on a value that
    is not a datetime, a plain date included, whatever the other arguments
    are: the type check comes before the check of the part. *)
Theorem timestamp_functions_type_check
    (v other : value) (x : Datetime.t) (n : Z) (part format : string) :
  isinstance_datetime v = false →
  timestampAdd lib v n part = Raises (TypeError "pychan.functions.timestampAdd()")
  ∧ timestampSub lib v n part
    = Raises (TypeError "pychan.functions.timestampSub()")
  ∧ timestampDiff lib v other
    = Raises (TypeError "pychan.functions.timestampDiff()")
  ∧ timestampDiff lib (DatetimeV x) v
    = Raises (TypeError "pychan.functions.timestampDiff()")
  ∧ timestampTrunc lib v part
    = Raises (TypeError "pychan.functions.timestampTrunc()")
  ∧ timestampFormat lib v format
    = Raises (TypeError "pychan.functions.timestampFormat()").
Proof. destruct v; try discriminate; intros _; repeat split. Qed.

(** X18. Every date function raises its own TypeError on a value that is
    not a plain date; a datetime is refused although it is a date by
    subclassing. *)
Theorem date_functions_type_check
    (v other : value) (d : Date.t) (n : Z) (part format : string) :
  (∀ d', v ≠ DateV d') →
  dateAdd lib v n part = Raises (TypeError "pychan.functions.dateAdd()")
  ∧ dateSub lib v n part = Raises (TypeError "pychan.functions.dateSub()")
  ∧ dateDiff lib v other = Raises (TypeError "pychan.functions.dateDiff()")
  ∧ dateDiff lib (DateV d) v = Raises (TypeError "pychan.functions.dateDiff()")
  ∧ dateTrunc v part = Raises (TypeError "pychan.functions.dateTrunc()")
  ∧ dateFormat lib v format = Raises (TypeError "pychan.functions.dateFormat()").
Proof.
  intros Hv. destruct v as [s|d'|x|]; try (repeat split; fail).
  by destruct (Hv d').
Qed.

(** X19. The shifting functions accept exactly the eight parts year, month,
    day, week, hour, minute, second and microsecond: on one of them the
    value is shifted by a delta whose keyword is the part followed by 's',
    on any other part the function raises its own PartError. *)
Theorem shift_functions_parts (x : Datetime.t) (d : Date.t) (n : Z) (part : string) :
  (part ∈ shift_parts →
   timestampAdd lib (DatetimeV x) n part
   = add_relativedelta lib (DatetimeV x) (mkRelativedelta (part +:+ "s") n)
   ∧ timestampSub lib (DatetimeV x) n part
     = sub_relativedelta lib (DatetimeV x) (mkRelativedelta (part +:+ "s") n)
   ∧ dateAdd lib (DateV d) n part
     = add_relativedelta lib (DateV d) (mkRelativedelta (part +:+ "s") n)
   ∧ dateSub lib (DateV d) n part
     = sub_relativedelta lib (DateV d) (mkRelativedelta (part +:+ "s") n))
  ∧ (part ∉ shift_parts →
     timestampAdd lib (DatetimeV x) n part
     = Raises (PartError "pychan.functions.timestampAdd()")
     ∧ timestampSub lib (DatetimeV x) n part
       = Raises (PartError "pychan.functions.timestampSub()")
     ∧ dateAdd lib (DateV d) n part
       = Raises (PartError "pychan.functions.dateAdd()")
     ∧ dateSub lib (DateV d) n part
       = Raises (PartError "pychan.functions.dateSub()")).
Proof.
  split; intros H; repeat split;
    unfold timestampAdd, timestampSub, dateAdd, dateSub; simpl;
    match goal with
    | |- _shiftTime _ ?e _ _ ?f ?a = _ =>
        destruct (shiftTime_part e n part f a) as [Hin Hout];
        first [exact (Hin H) | exact (Hout H)]
    end.
Qed.

End FunctionsFacts.

Lemma timestamp_functions_type_check_witness :
  Functions.timestampTrunc Functions.accepting_library
    (Functions.DateV (Functions.Date.mk 2025 7 30)) "day"
  = Raises (Functions.TypeError "pychan.functions.timestampTrunc()").
Proof.
  apply (timestamp_functions_type_check Functions.accepting_library
           (Functions.DateV (Functions.Date.mk 2025 7 30)) Functions.Other
           Functions.Datetime.min 0 "day" "").
  reflexivity.
Defined.

Lemma date_functions_type_check_witness :
  Functions.dateTrunc
    (Functions.DatetimeV Functions.Datetime.min) "month"
  = Raises (Functions.TypeError "pychan.functions.dateTrunc()").
Proof.
  apply (date_functions_type_check Functions.accepting_library
           (Functions.DatetimeV Functions.Datetime.min) Functions.Other
           (Functions.Date.mk 2025 7 30) 0 "month" "").
  discriminate.
Defined.

Lemma shift_functions_parts_witness :
  Functions.timestampAdd Functions.accepting_library
    (Functions.DatetimeV Functions.Datetime.min) 1 "days"
  = Raises (Functions.PartError "pychan.functions.timestampAdd()").
Proof.
  apply (shift_functions_parts Functions.accepting_library
           Functions.Datetime.min (Functions.Date.mk 2025 7 30) 1 "days").
  apply (bool_decide_unpack _). vm_compute. exact I.
Defined.

Section Truncation.

Import Functions.

Context (lib : Library).

(** X20. [timestampTrunc] truncates a datetime to each of year, month, day,
    hour, minute and second and raises its PartError on every part other
    than these and week, 'microsecond' included; [dateTrunc] truncates a
    date to year and month only and raises its PartError on every other
    part, 'day' and 'week' included. *)
Theorem trunc_functions_parts (x : Datetime.t) (d : Date.t) (part : string) :
  (part ∈ field_parts → ∃ y, timestampTrunc lib (DatetimeV x) part = Returns y)
  ∧ (part ∉ "week" :: field_parts →
     timestampTrunc lib (DatetimeV x) part
     = Raises (PartError "pychan.functions.timestampTrunc()"))
  ∧ (part ∈ ["year"; "month"] → ∃ y, dateTrunc (DateV d) part = Returns y)
  ∧ (part ∉ ["year"; "month"] →
     dateTrunc (DateV d) part
     = Raises (PartError "pychan.functions.dateTrunc()")).
Proof.
  repeat split.
  - unfold field_parts. rewrite !elem_of_cons, elem_of_nil.
    intros [->|[->|[->|[->|[->|[->|[]]]]]]]; eexists; vm_compute; reflexivity.
  - intros Hn.
    assert (_TIMESTAMP_TRUNC lib !! part = None) as Hnone.
    { apply not_elem_of_list_to_map_1. intros Hin. apply Hn.
      simpl in Hin. unfold field_parts.
      rewrite !elem_of_cons, elem_of_nil in *. tauto. }
    change (timestampTrunc lib (DatetimeV x) part)
      with (match _TIMESTAMP_TRUNC lib !! part with
            | Some func => func x
            | None => Raises (PartError (__name__ +:+ ".timestampTrunc()"))
            end).
    by rewrite Hnone.
  - rewrite !elem_of_cons, elem_of_nil.
    intros [->|[->|[]]]; eexists; vm_compute; reflexivity.
  - intros Hn.
    assert (_DATE_TRUNC !! part = None) as Hnone
      by (apply not_elem_of_list_to_map_1; exact Hn).
    change (dateTrunc (DateV d) part)
      with (match _DATE_TRUNC !! part with
            | Some func => Returns (E := exn) (func d)
            | None => Raises (PartError (__name__ +:+ ".dateTrunc()"))
            end).
    by rewrite Hnone.
Qed.

(** X21. For two of the parts year, month, day, hour, minute, second,
    truncating to the coarser one absorbs truncating to the finer one, in
    either order; with twice the same part, truncation is idempotent. *)
Theorem timestampTrunc_absorbs (x : Datetime.t) (i j : nat) (p q : string) :
  field_parts !! i = Some p → field_parts !! j = Some q → (i ≤ j)%nat →
  ∃ y z,
    timestampTrunc lib (DatetimeV x) p = Returns y
    ∧ timestampTrunc lib (DatetimeV x) q = Returns z
    ∧ timestampTrunc lib (DatetimeV z) p = Returns y
    ∧ timestampTrunc lib (DatetimeV y) q = Returns y.
Proof.
  intros Hp Hq Hij.
  pose proof (lookup_lt_Some _ _ _ Hp) as Hi.
  pose proof (lookup_lt_Some _ _ _ Hq) as Hj. simpl in Hi, Hj.
  destruct i as [|[|[|[|[|[|i]]]]]]; try lia;
    destruct j as [|[|[|[|[|[|j]]]]]]; try lia;
    simplify_eq/=; do 2 eexists; repeat split; vm_compute; reflexivity.
Qed.

(** X22. For the parts year and month, truncating a datetime and then
    taking its date gives the same date as taking the date first and
    truncating it with [dateTrunc]. *)
Theorem dateTrunc_of_date (x : Datetime.t) (part : string) :
  part ∈ ["year"; "month"] →
  ∃ y, timestampTrunc lib (DatetimeV x) part = Returns y
       ∧ dateTrunc (DateV (Datetime.date x)) part = Returns (Datetime.date y).
Proof.
  rewrite !elem_of_cons, elem_of_nil.
  intros [->|[->|[]]]; eexists; split; vm_compute; reflexivity.
Qed.

(** X23. Converting a date with [toTimestamp] and back with [toDate] gives
    the date again; [toDate] itself refuses a date. *)
Theorem toTimestamp_toDate_round_trip (d : Date.t) :
  (∃ y, toTimestamp lib (DateV d) = Returns y
        ∧ toDate lib (DatetimeV y) = Returns d)
  ∧ toDate lib (DateV d) = Raises (TypeError "pychan.functions.toDate()").
Proof. split; [eexists; split; [reflexivity|by destruct d]|reflexivity]. Qed.



End Truncation.

Lemma timestampTrunc_absorbs_witness :
  ∃ y z,
    Functions.timestampTrunc Functions.accepting_library
      (Functions.DatetimeV (Functions.Datetime.mk 2025 7 30 9 57 12 564 None 0))
      "month" = Returns y
    ∧ Functions.timestampTrunc Functions.accepting_library
        (Functions.DatetimeV (Functions.Datetime.mk 2025 7 30 9 57 12 564 None 0))
        "minute" = Returns z
    ∧ Functions.timestampTrunc Functions.accepting_library
        (Functions.DatetimeV z) "month" = Returns y
    ∧ Functions.timestampTrunc Functions.accepting_library
        (Functions.DatetimeV y) "minute" = Returns y.
Proof.
  apply (timestampTrunc_absorbs Functions.accepting_library
           (Functions.Datetime.mk 2025 7 30 9 57 12 564 None 0) 1 4).
  - reflexivity.
  - reflexivity.
  - lia.
Defined.

Lemma trunc_functions_parts_witness :
  Functions.timestampTrunc Functions.accepting_library
    (Functions.DatetimeV (Functions.Datetime.mk 2025 7 30 9 57 12 564 None 0))
    "microsecond"
  = Raises (Functions.PartError "pychan.functions.timestampTrunc()").
Proof.
  apply (trunc_functions_parts Functions.accepting_library
           (Functions.Datetime.mk 2025 7 30 9 57 12 564 None 0)
           (Functions.Date.mk 2025 7 30) "microsecond").
  apply (bool_decide_unpack _). vm_compute. exact I.
Defined.

Lemma dateTrunc_of_date_witness :
  ∃ y,
    Functions.timestampTrunc Functions.accepting_library
      (Functions.DatetimeV (Functions.Datetime.mk 2025 7 30 9 57 12 564 None 0))
      "month" = Returns y
    ∧ Functions.dateTrunc
        (Functions.DateV
           (Functions.Datetime.date
              (Functions.Datetime.mk 2025 7 30 9 57 12 564 None 0)))
        "month"
      = Returns (Functions.Datetime.date y).
Proof.
  apply (dateTrunc_of_date Functions.accepting_library
           (Functions.Datetime.mk 2025 7 30 9 57 12 564 None 0) "month").
  apply (bool_decide_unpack _). vm_compute. exact I.
Defined.

Section Identifiers.

Import Functions.

Context (lib : Library).

Lemma digit_group_2 (s : string) :
  digit_group 2 s →
  ∃ a b, s = String a (String b "")
         ∧ is_decimal_digit a = true ∧ is_decimal_digit b = true.
Proof.
  intros [Hl Hd]. destruct s as [|a [|b [|c s]]]; try discriminate Hl.
  exists a, b. simpl in Hd. tauto.
Qed.

Lemma digit_group_4 (s : string) :
  digit_group 4 s →
  ∃ a b c d, s = String a (String b (String c (String d "")))
             ∧ is_decimal_digit a = true ∧ is_decimal_digit b = true
             ∧ is_decimal_digit c = true ∧ is_decimal_digit d = true.
Proof.
  intros [Hl Hd].
  destruct s as [|a [|b [|c [|d [|e s]]]]]; try discriminate Hl.
  exists a, b, c, d. simpl in Hd. tauto.
Qed.

(** The two identifier functions on a string, by what the parser says. *)
Lemma ids_by_parser (s : string) :
  (toTimestampId lib (Str s) = Returns (re_sub_nondigit (slice_to 19 s))
   ∧ toDateId lib (Str s) = Returns (re_sub_nondigit (slice_to 10 s)))
  ∨ (∃ e, toTimestampId lib (Str s) = Raises e
          ∧ toDateId lib (Str s) = Raises e).
Proof.
  unfold toTimestampId, toDateId, _parseTimestamp. simpl.
  destruct (parser_parse lib s) as [x|[]]; simpl; eauto.
Qed.

(** X26. On the same string the two identifier functions succeed together
    or raise the same exception together.  When they succeed, the date
    identifier is a prefix of the timestamp identifier, both consist of
    decimal digits only, and they have at most 10 and 19 characters. *)
Theorem ids_agree (s : string) :
  (∃ t d,
     toTimestampId lib (Str s) = Returns t
     ∧ toDateId lib (Str s) = Returns d
     ∧ (∃ rest, t = d +:+ rest)
     ∧ all_digits t ∧ all_digits d
     ∧ (String.length t ≤ 19)%nat ∧ (String.length d ≤ 10)%nat)
  ∨ (∃ e, toTimestampId lib (Str s) = Raises e
          ∧ toDateId lib (Str s) = Raises e).
Proof.
  destruct (ids_by_parser s) as [[-> ->]|?]; [left|by right].
  do 2 eexists. split; [reflexivity|]. split; [reflexivity|].
  split; [apply re_sub_nondigit_slice; lia|].
  split; [apply re_sub_nondigit_digits|].
  split; [apply re_sub_nondigit_digits|]. split.
  - etrans; [apply re_sub_nondigit_length|apply slice_to_length].
  - etrans; [apply re_sub_nondigit_length|apply slice_to_length].
Qed.

(** X27. On a text that starts with a four-digit year, two-digit month,
    day, hour, minute and second, each two groups separated by one
    character that is not a digit, and that the parser accepts, the
    timestamp identifier is the fourteen digits and the date identifier the
    first eight of them; what follows the seconds is dropped. *)
Theorem ids_of_timestamp_text
    (y mo d h mi se rest : string) (c1 c2 c3 c4 c5 : ascii) :
  digit_group 4 y → digit_group 2 mo → digit_group 2 d →
  digit_group 2 h → digit_group 2 mi → digit_group 2 se →
  Forall (λ c, is_decimal_digit c = false) [c1; c2; c3; c4; c5] →
  (toTimestampId lib
     (Str (y +:+ String c1 mo +:+ String c2 d +:+ String c3 h
             +:+ String c4 mi +:+ String c5 se +:+ rest))
   = Returns (y +:+ mo +:+ d +:+ h +:+ mi +:+ se)
   ∧ toDateId lib
       (Str (y +:+ String c1 mo +:+ String c2 d +:+ String c3 h
               +:+ String c4 mi +:+ String c5 se +:+ rest))
     = Returns (y +:+ mo +:+ d))
  ∨ (∃ e,
       toTimestampId lib
         (Str (y +:+ String c1 mo +:+ String c2 d +:+ String c3 h
                 +:+ String c4 mi +:+ String c5 se +:+ rest))
       = Raises e
       ∧ toDateId lib
           (Str (y +:+ String c1 mo +:+ String c2 d +:+ String c3 h
                   +:+ String c4 mi +:+ String c5 se +:+ rest))
         = Raises e).
Proof.
  intros (y1 & y2 & y3 & y4 & -> & Hy1 & Hy2 & Hy3 & Hy4)%digit_group_4
         (m1 & m2 & -> & Hm1 & Hm2)%digit_group_2
         (d1 & d2 & -> & Hd1 & Hd2)%digit_group_2
         (h1 & h2 & -> & Hh1 & Hh2)%digit_group_2
         (i1 & i2 & -> & Hi1 & Hi2)%digit_group_2
         (s1 & s2 & -> & Hs1 & Hs2)%digit_group_2 Hsep.
  rewrite !Forall_cons in Hsep.
  destruct Hsep as (Hc1 & Hc2 & Hc3 & Hc4 & Hc5 & _).
  match goal with
  | |- context [Str ?s] => destruct (ids_by_parser s) as [[-> ->]|?]
  end; [left|by right].
  cbv [String.append slice_to re_sub_nondigit].
  rewrite Hy1, Hy2, Hy3, Hy4, Hm1, Hm2, Hd1, Hd2, Hh1, Hh2, Hi1, Hi2, Hs1, Hs2,
    Hc1, Hc2, Hc3, Hc4, Hc5.
  done.
Qed.

(** X28. The functions built on [_parseTimestamp] raise a TypeError on a
    value that is not a string, a ParserError when the parser raises a
    ValueError, and pass an OverflowError of the parser on unchanged; the
    errors carry the name of the function, except that [toDateId] reports
    under the name of [toTimestampId]. *)
Theorem parse_functions_errors (v : value) (s : string) :
  (isinstance_str v = false →
   parseTimestamp lib v = Raises (TypeError "pychan.functions.parseTimestamp()")
   ∧ parseDate lib v = Raises (TypeError "pychan.functions.parseDate()")
   ∧ toTimestampId lib v
     = Raises (TypeError "pychan.functions.toTimestampId()")
   ∧ toDateId lib v = Raises (TypeError "pychan.functions.toTimestampId()"))
  ∧ (∀ msg, parser_parse lib s = Raises (ValueError msg) →
       parseTimestamp lib (Str s)
       = Raises (ParserError "pychan.functions.parseTimestamp()")
       ∧ parseDate lib (Str s)
         = Raises (ParserError "pychan.functions.parseDate()")
       ∧ toTimestampId lib (Str s)
         = Raises (ParserError "pychan.functions.toTimestampId()")
       ∧ toDateId lib (Str s)
         = Raises (ParserError "pychan.functions.toTimestampId()"))
  ∧ (∀ msg, parser_parse lib s = Raises (OverflowError msg) →
       parseTimestamp lib (Str s) = Raises (OverflowError msg)
       ∧ parseDate lib (Str s) = Raises (OverflowError msg)
       ∧ toTimestampId lib (Str s) = Raises (OverflowError msg)
       ∧ toDateId lib (Str s) = Raises (OverflowError msg)).
Proof.
  split; [|split].
  - destruct v; try discriminate; intros _; repeat split.
  - intros msg H.
    unfold parseTimestamp, parseDate, toTimestampId, toDateId, _parseTimestamp.
    simpl. rewrite H. repeat split.
  - intros msg H.
    unfold parseTimestamp, parseDate, toTimestampId, toDateId, _parseTimestamp.
    simpl. rewrite H. repeat split.
Qed.

End Identifiers.

Lemma ids_of_timestamp_text_witness :
  Functions.toTimestampId Functions.accepting_library
    (Functions.Str "2025-02-20 16:09:32.994308") = Returns "20250220160932"
  ∧ Functions.toDateId Functions.accepting_library
      (Functions.Str "2025-02-20 16:09:32.994308") = Returns "20250220".
Proof.
  destruct (ids_of_timestamp_text Functions.accepting_library
              "2025" "02" "20" "16" "09" "32" ".994308" "-" "-" " " ":" ":")
    as [H|[e [H _]]].
  - vm_compute. tauto.
  - vm_compute. tauto.
  - vm_compute. tauto.
  - vm_compute. tauto.
  - vm_compute. tauto.
  - vm_compute. tauto.
  - repeat constructor.
  - exact H.
  - discriminate H.
Defined.

Lemma parse_functions_errors_witness :
  Functions.toDateId Functions.accepting_library Functions.Other
  = Raises (Functions.TypeError "pychan.functions.toTimestampId()").
Proof.
  apply (parse_functions_errors Functions.accepting_library Functions.Other "").
  reflexivity.
Defined.

(** ** Further facts: clauses used in the writer *)

(** X29. [_genIdCondition] returns the empty string exactly for an empty
    key list; given to [on], that result counts as a missing join condition:
    [generate] then raises the missing-configuration error, whatever else
    the writer holds. *)
Theorem empty_keys_condition_is_missing (w : MergeIntoWriter) (keys : list string) :
  (_genIdCondition keys = "" ↔ keys = [])
  ∧ (keys = [] →
     generate (after (on (_genIdCondition keys)) w)
     = (Raise MissingConfigurationError, after (on (_genIdCondition keys)) w)).
Proof.
  split.
  - split; [|by intros ->]. unfold _genIdCondition.
    rewrite comprehension_fmap. intros H. apply join_nil_inv in H.
    + by apply fmap_nil_inv in H.
    + apply Forall_fmap, Forall_forall. intros k _ Hk. simpl in Hk.
      apply string_app_nil_inv in Hk as [Hk _]. discriminate Hk.
  - intros ->.
    destruct (generate_cases (after (on (_genIdCondition [])) w))
      as [[_ ->]|[(Hn & _)|(Hn & _)]]; [done|..]; exfalso; apply Hn;
      right; right; right; reflexivity.
Qed.

Lemma empty_keys_condition_is_missing_witness :
  generate (after (on (_genIdCondition [])) sales_upsert)
  = (Raise MissingConfigurationError,
     after (on (_genIdCondition [])) sales_upsert).
Proof.
  apply (empty_keys_condition_is_missing sales_upsert []). reflexivity.
Defined.
